(** * MCP todo demo: the tool server's task store and the host's
      multi-pass orchestration loop

    A shallow embedding of [src/good_todo_server.py] and of
    [src/todo_client.py], followed by the properties established about
    them.

    Python values are embedded as follows.
    - [int] is [Z] (unbounded); [str] is [string] (the UTF-8 bytes of
      the text); [bool] is [bool]; [None]-able values are [option].
    - A [dict] is an association list in insertion order, read and
      written through [dict_*] operations that behave like Python's:
      assignment to an existing key keeps the key's position, a new key
      goes last, subscripting and [pop] of an absent key raise
      [KeyError].
    - Code that can mutate state or raise lives in the monad [Py S],
      state passing over [S] with an exception result; a [try]/[except]
      is [try_except].  Only exceptions deriving from [Exception] are
      modelled.
    - The remote parties (the model API, the MCP session, the [json]
      module) are the fields of the class [Externals].
    - Printing, the debug log included, is left out. *)

From stdpp Require Import base list list_numbers sorting strings pretty.
From Stdlib Require Import ZArith Lia Ascii String Sorted.

Set Warnings "-register-all".

Local Open Scope Z_scope.
Local Open Scope string_scope.

(* ===================================================================== *)
(** * Python values, exceptions and the effect monad                     *)
(* ===================================================================== *)

(** JSON-shaped Python values: what [json.loads] builds, what a tool
    schema and a tool argument object are made of.  A float is kept as
    its literal; no arithmetic is ever done on one. *)
Inductive json : Type :=
| JNull
| JBool (b : bool)
| JInt (n : Z)
| JFloat (literal : string)
| JString (s : string)
| JList (items : list json)
| JDict (items : list (string * json)).

(** An exception class: its name and the names of the classes it
    derives from, nearest first, up to [Exception] (its [__mro__]
    without itself, [BaseException] and [object]). *)
Record ExnClass : Type := { class_name : string; class_bases : list string }.

(** The classes of the [anthropic] package that the host names or can
    meet: [APITimeoutError] derives from [APIConnectionError]. *)
Definition APIConnectionError : ExnClass :=
  {| class_name := "APIConnectionError";
     class_bases := [ "APIError"; "AnthropicError"; "Exception" ] |}.

Definition APITimeoutError : ExnClass :=
  {| class_name := "APITimeoutError";
     class_bases := [ "APIConnectionError"; "APIError"; "AnthropicError"; "Exception" ] |}.

Definition AuthenticationError : ExnClass :=
  {| class_name := "AuthenticationError";
     class_bases := [ "APIStatusError"; "APIError"; "AnthropicError"; "Exception" ] |}.

(** Built-in classes. *)
Definition RuntimeError : ExnClass :=
  {| class_name := "RuntimeError"; class_bases := [ "Exception" ] |}.

Definition KeyError : ExnClass :=
  {| class_name := "KeyError"; class_bases := [ "LookupError"; "Exception" ] |}.

Definition AttributeError : ExnClass :=
  {| class_name := "AttributeError"; class_bases := [ "Exception" ] |}.

(** An exception object: its class and [str(e)]. *)
Record Exn : Type := { exn_class : ExnClass; exn_str : string }.

(** [isinstance(e, cls)]: the class of [e] is [cls] or derives from it;
    this is the test an [except cls] clause makes. *)
Definition isinstance (e : Exn) (cls : ExnClass) : bool :=
  existsb (String.eqb (class_name cls))
          (class_name (exn_class e) :: class_bases (exn_class e)).

Inductive outcome (A : Type) : Type :=
| Ret (a : A)
| Raise (e : Exn).
Arguments Ret {A} a.
Arguments Raise {A} e.

(** State passing with exceptions.  A raise keeps the state reached so
    far, as a Python exception keeps the mutations already done. *)
Definition Py (S A : Type) : Type := S -> S * outcome A.

Definition ret {S A} (a : A) : Py S A := fun s => (s, Ret a).

Definition raise {S A} (e : Exn) : Py S A := fun s => (s, Raise e).

Definition bind {S A B} (m : Py S A) (k : A -> Py S B) : Py S B :=
  fun s =>
    match m s with
    | (s', Ret a) => k a s'
    | (s', Raise e) => (s', Raise e)
    end.

Definition get {S} : Py S S := fun s => (s, Ret s).

Definition modify {S} (f : S -> S) : Py S unit := fun s => (f s, Ret tt).

(** [try: body / except Exception as e: handler e]. *)
Definition try_except {S A} (body : Py S A) (handler : Exn -> Py S A) : Py S A :=
  fun s =>
    match body s with
    | (s', Ret a) => (s', Ret a)
    | (s', Raise e) => handler e s'
    end.

(** Lift an already computed outcome. *)
Definition lift {S A} (o : outcome A) : Py S A := fun s => (s, o).

Declare Scope py_scope.
Delimit Scope py_scope with py.
Notation "x <- c1 ;; c2" := (bind c1 (fun x => c2))
  (at level 100, c1 at next level, right associativity) : py_scope.
Notation "c1 ;;; c2" := (bind c1 (fun _ => c2))
  (at level 100, right associativity) : py_scope.

(** ** Python dictionaries *)

Section Dict.
Context {K V : Type} (eqb : K -> K -> bool) (key_str : K -> string).

(** [k in d] *)
Fixpoint dict_contains (k : K) (d : list (K * V)) : bool :=
  match d with
  | [] => false
  | (k', _) :: d' => if eqb k' k then true else dict_contains k d'
  end.

(** [d.get(k)] *)
Fixpoint dict_lookup (k : K) (d : list (K * V)) : option V :=
  match d with
  | [] => None
  | (k', v) :: d' => if eqb k' k then Some v else dict_lookup k d'
  end.

(** [d[k]] *)
Definition dict_getitem (k : K) (d : list (K * V)) : outcome V :=
  match dict_lookup k d with
  | Some v => Ret v
  | None => Raise {| exn_class := KeyError; exn_str := key_str k |}
  end.

(** [d[k] = v] *)
Fixpoint dict_setitem (k : K) (v : V) (d : list (K * V)) : list (K * V) :=
  match d with
  | [] => [(k, v)]
  | (k', v') :: d' =>
      if eqb k' k then (k', v) :: d' else (k', v') :: dict_setitem k v d'
  end.

(** [d.pop(k)]: the value and the dictionary without the key. *)
Fixpoint dict_pop (k : K) (d : list (K * V)) : outcome (V * list (K * V)) :=
  match d with
  | [] => Raise {| exn_class := KeyError; exn_str := key_str k |}
  | (k', v') :: d' =>
      if eqb k' k then Ret (v', d')
      else match dict_pop k d' with
           | Ret (v, d'') => Ret (v, (k', v') :: d'')
           | Raise e => Raise e
           end
  end.

(** [d.values()] *)
Definition dict_values (d : list (K * V)) : list V := map snd d.
End Dict.

(** [d.get(key, default)] on a JSON object. *)
Definition json_get (key : string) (default : json) (d : list (string * json)) : json :=
  match dict_lookup String.eqb key d with
  | Some v => v
  | None => default
  end.

(** ** Strings *)

Definition nl : string := String (ascii_of_nat 10) EmptyString.

(** [c.lower()] on one ASCII character; other bytes are unchanged. *)
Definition lower_ascii (c : ascii) : ascii :=
  let n := nat_of_ascii c in
  if (Nat.leb 65 n && Nat.leb n 90)%bool then ascii_of_nat (n + 32) else c.

(** [s.lower()] *)
Fixpoint lower (s : string) : string :=
  match s with
  | EmptyString => EmptyString
  | String c s' => String (lower_ascii c) (lower s')
  end.

(** [needle in hay] *)
Fixpoint str_in (needle hay : string) : bool :=
  if String.prefix needle hay then true
  else match hay with
       | EmptyString => false
       | String _ hay' => str_in needle hay'
       end.

(* ===================================================================== *)
(** * The tool server: [good_todo_server.py]                             *)
(* ===================================================================== *)

Module good_todo_server.

(** A todo dictionary.  [updated_at] is the one key that is absent at
    creation and added by the first update. *)
Record Todo : Type := {
  id : Z;
  title : string;
  description : string;
  priority : string;
  completed : bool;
  created_at : string;
  updated_at : option string
}.

(** [class TodoStore] *)
Record TodoStore : Type := {
  todos : list (Z * Todo);
  _next_id : Z
}.

(** [TodoStore.__init__] *)
Definition TodoStore_init : TodoStore := {| todos := []; _next_id := 1 |}.

(** [TodoStore.get_next_id] *)
Definition get_next_id : Py TodoStore Z :=
  fun self =>
    let current_id := _next_id self in
    ({| todos := todos self; _next_id := _next_id self + 1 |}, Ret current_id).

(** The dictionaries the four tools return. *)
Inductive Reply : Type :=
| TodoReply (success : bool) (todo : Todo)
| DeletedReply (success : bool) (deleted_todo : Todo)
| ErrorReply (success : bool) (error : string)
| ListReply (todos : list Todo) (count total : nat).

(** [reply["success"]], absent from a listing. *)
Definition success (r : Reply) : option bool :=
  match r with
  | TodoReply b _ | DeletedReply b _ | ErrorReply b _ => Some b
  | ListReply _ _ _ => None
  end.

(** [reply.get("error")] *)
Definition error (r : Reply) : option string :=
  match r with
  | ErrorReply _ msg => Some msg
  | _ => None
  end.

Definition set_todos (f : list (Z * Todo) -> list (Z * Todo)) (s : TodoStore) : TodoStore :=
  {| todos := f (todos s); _next_id := _next_id s |}.

(** [f"Todo {todo_id} not found"] *)
Definition not_found (todo_id : Z) : string :=
  "Todo " ++ pretty todo_id ++ " not found".

(** [create_todo]; [now] is what [datetime.now().isoformat()] reads
    off the clock. *)
Definition create_todo (title description priority : string) (now : string)
  : Py TodoStore Reply :=
  (todo_id <- get_next_id ;;
   let todo := {| id := todo_id; title := title; description := description;
                  priority := priority; completed := false;
                  created_at := now; updated_at := None |} in
   modify (set_todos (dict_setitem Z.eqb todo_id todo)) ;;;
   ret (TodoReply true todo))%py.

(** [list_todos] *)
Definition list_todos (status : string) : Py TodoStore Reply :=
  (store <- get ;;
   let filtered_todos :=
     filter (fun todo : Todo =>
               Is_true (String.eqb status "all"
                        || (String.eqb status "completed" && completed todo)
                        || (String.eqb status "pending" && negb (completed todo))))
            (dict_values (todos store)) in
   ret (ListReply filtered_todos (List.length filtered_todos)
                  (List.length (todos store))))%py.

Definition or_keep {A} (new : option A) (old : A) : A :=
  match new with Some a => a | None => old end.

(** [update_todo]; the todo fetched from the store is the stored
    object itself, so the field assignments update the store. *)
Definition update_todo (todo_id : Z) (title description priority : option string)
    (completed : option bool) (now : string) : Py TodoStore Reply :=
  (store <- get ;;
   if negb (dict_contains Z.eqb todo_id (todos store)) then
     ret (ErrorReply false (not_found todo_id))
   else
     todo <- lift (dict_getitem Z.eqb pretty todo_id (todos store)) ;;
     let todo := {| id := todo.(id);
                    title := or_keep title todo.(good_todo_server.title);
                    description := or_keep description todo.(good_todo_server.description);
                    priority := or_keep priority todo.(good_todo_server.priority);
                    completed := or_keep completed todo.(good_todo_server.completed);
                    created_at := todo.(created_at);
                    updated_at := Some now |} in
     modify (set_todos (dict_setitem Z.eqb todo_id todo)) ;;;
     ret (TodoReply true todo))%py.

(** [delete_todo] *)
Definition delete_todo (todo_id : Z) : Py TodoStore Reply :=
  (store <- get ;;
   if negb (dict_contains Z.eqb todo_id (todos store)) then
     ret (ErrorReply false (not_found todo_id))
   else
     popped <- lift (dict_pop Z.eqb pretty todo_id (todos store)) ;;
     let '(deleted_todo, rest) := popped in
     modify (set_todos (fun _ => rest)) ;;;
     ret (DeletedReply true deleted_todo))%py.

(** The arguments of one call of a tool function, with the clock
    reading it will see. *)
Inductive Call : Type :=
| CreateTodo (title description priority : string) (now : string)
| ListTodos (status : string)
| UpdateTodo (todo_id : Z) (title description priority : option string)
             (completed : option bool) (now : string)
| DeleteTodo (todo_id : Z).

Definition dispatch (c : Call) : Py TodoStore Reply :=
  match c with
  | CreateTodo t d p now => create_todo t d p now
  | ListTodos st => list_todos st
  | UpdateTodo i t d p c now => update_todo i t d p c now
  | DeleteTodo i => delete_todo i
  end.

(** The tool functions called one after another on the one
    process-wide store, the outcome of each call kept.  The framework
    checks a request against the declared field patterns before it
    calls the function; that check is not part of these functions, so
    the calls of a real run are those of the requests that passed
    it. *)
Fixpoint serve (calls : list Call) (store : TodoStore)
  : TodoStore * list (Call * outcome Reply) :=
  match calls with
  | [] => (store, [])
  | c :: calls' =>
      let '(store', r) := dispatch c store in
      let '(store'', log) := serve calls' store' in
      (store'', (c, r) :: log)
  end.

(** The ids handed out by [create_todo], in the order of issue. *)
Fixpoint issued_ids (log : list (Call * outcome Reply)) : list Z :=
  match log with
  | [] => []
  | (CreateTodo _ _ _ _, Ret (TodoReply _ todo)) :: log' => id todo :: issued_ids log'
  | _ :: log' => issued_ids log'
  end.

(** The number of [create_todo] requests in a sequence. *)
Fixpoint creations (calls : list Call) : nat :=
  match calls with
  | [] => 0%nat
  | CreateTodo _ _ _ _ :: calls' => S (creations calls')
  | _ :: calls' => creations calls'
  end.

(** ** Reading a store *)

(** The keys of [todos], in the dictionary's order. *)
Definition ids (store : TodoStore) : list Z := map fst (todos store).

(** [todo_store.todos.get(todo_id)] *)
Definition find (todo_id : Z) (store : TodoStore) : option Todo :=
  dict_lookup Z.eqb todo_id (todos store).

(** What the server keeps true of its store: the keys grow along the
    dictionary, lie between 1 and the id counter, and each todo sits
    under its own id. *)
Definition store_ok (store : TodoStore) : Prop :=
  StronglySorted Z.lt (ids store)
  /\ 1 <= _next_id store
  /\ Forall (fun k => 1 <= k < _next_id store) (ids store)
  /\ Forall (fun entry : Z * Todo => id (snd entry) = fst entry) (todos store).

(** What [update_todo] makes of a stored todo. *)
Definition updated (todo : Todo) (title description priority : option string)
    (completed : option bool) (now : string) : Todo :=
  {| id := todo.(id);
     title := or_keep title todo.(good_todo_server.title);
     description := or_keep description todo.(good_todo_server.description);
     priority := or_keep priority todo.(good_todo_server.priority);
     completed := or_keep completed todo.(good_todo_server.completed);
     created_at := todo.(created_at);
     updated_at := Some now |}.

(** The todos a listing returns. *)
Definition listed (r : outcome Reply) : list Todo :=
  match r with
  | Ret (ListReply l _ _) => l
  | _ => []
  end.

End good_todo_server.

(* ===================================================================== *)
(** * The other tool server: [bad_todo_server.py]                        *)
(* ===================================================================== *)

Module bad_todo_server.

(** A todo dictionary, under the server's short keys. *)
Record Todo : Type := {
  id : Z;
  t : string;
  de : string;
  pr : string;
  co : bool;
  ca : string;
  updated_at : option string
}.

(** [class TodoStore] *)
Record TodoStore : Type := {
  todos : list (Z * Todo);
  _next_id : Z
}.

(** [TodoStore.__init__] *)
Definition TodoStore_init : TodoStore := {| todos := []; _next_id := 1 |}.

(** [TodoStore.get_next_id] *)
Definition get_next_id : Py TodoStore Z :=
  fun self =>
    let current_id := _next_id self in
    ({| todos := todos self; _next_id := _next_id self + 1 |}, Ret current_id).

(** The dictionaries the four tools return. *)
Inductive Reply : Type :=
| TodoReply (success : bool) (todo : Todo)
| DeletedReply (success : bool) (deleted_todo : Todo)
| ErrorReply (success : bool) (error : string)
| ListReply (todos : list Todo) (count total : nat).

Definition set_todos (f : list (Z * Todo) -> list (Z * Todo)) (s : TodoStore) : TodoStore :=
  {| todos := f (todos s); _next_id := _next_id s |}.

(** [create] *)
Definition create (title description priority : string) (now : string)
  : Py TodoStore Reply :=
  (todo_id <- get_next_id ;;
   let todo := {| id := todo_id; t := title; de := description; pr := priority;
                  co := false; ca := now; updated_at := None |} in
   modify (set_todos (dict_setitem Z.eqb todo_id todo)) ;;;
   ret (TodoReply true todo))%py.

(** [list] *)
Definition list' (status : string) : Py TodoStore Reply :=
  (store <- get ;;
   let filtered_todos :=
     filter (fun todo : Todo =>
               Is_true (String.eqb status "all"
                        || (String.eqb status "completed" && co todo)
                        || (String.eqb status "pending" && negb (co todo))))
            (dict_values (todos store)) in
   ret (ListReply filtered_todos (List.length filtered_todos)
                  (List.length (todos store))))%py.

Definition or_keep {A} (new : option A) (old : A) : A :=
  match new with Some a => a | None => old end.

(** [update] *)
Definition update (todo_id : Z) (title description priority : option string)
    (completed : option bool) (now : string) : Py TodoStore Reply :=
  (store <- get ;;
   if negb (dict_contains Z.eqb todo_id (todos store)) then
     ret (ErrorReply false ("Todo " ++ pretty todo_id ++ " not found"))
   else
     todo <- lift (dict_getitem Z.eqb pretty todo_id (todos store)) ;;
     let todo := {| id := todo.(id);
                    t := or_keep title todo.(t);
                    de := or_keep description todo.(de);
                    pr := or_keep priority todo.(pr);
                    co := or_keep completed todo.(co);
                    ca := todo.(ca);
                    updated_at := Some now |} in
     modify (set_todos (dict_setitem Z.eqb todo_id todo)) ;;;
     ret (TodoReply true todo))%py.

(** [delete] *)
Definition delete' (todo_id : Z) : Py TodoStore Reply :=
  (store <- get ;;
   if negb (dict_contains Z.eqb todo_id (todos store)) then
     ret (ErrorReply false ("Todo " ++ pretty todo_id ++ " not found"))
   else
     popped <- lift (dict_pop Z.eqb pretty todo_id (todos store)) ;;
     let '(deleted_todo, rest) := popped in
     modify (set_todos (fun _ => rest)) ;;;
     ret (DeletedReply true deleted_todo))%py.

(** The arguments of one call of a tool function, with the clock
    reading it will see. *)
Inductive Call : Type :=
| Create (title description priority : string) (now : string)
| List (status : string)
| Update (todo_id : Z) (title description priority : option string)
         (completed : option bool) (now : string)
| Delete (todo_id : Z).

Definition dispatch (c : Call) : Py TodoStore Reply :=
  match c with
  | Create title description priority now => create title description priority now
  | List status => list' status
  | Update i title description priority completed now =>
      update i title description priority completed now
  | Delete i => delete' i
  end.

(** The tool functions called one after another on the server's
    store; as for the other server, the framework's check of a request
    against the field patterns comes before the call and is not part
    of them. *)
Fixpoint serve (calls : list Call) (store : TodoStore)
  : TodoStore * list (Call * outcome Reply) :=
  match calls with
  | [] => (store, [])
  | c :: calls' =>
      let '(store', r) := dispatch c store in
      let '(store'', log) := serve calls' store' in
      (store'', (c, r) :: log)
  end.

End bad_todo_server.

(** ** The two servers side by side *)

(** Reading a todo, a store, a request and a result of the documented
    server in the vocabulary of the other one: the same values under
    the keys [t], [de], [pr], [co], [ca], the same tools under the
    names [create], [list], [update], [delete]. *)
Module server_variants.

Definition short_keys (todo : good_todo_server.Todo) : bad_todo_server.Todo :=
  {| bad_todo_server.id := good_todo_server.id todo;
     bad_todo_server.t := good_todo_server.title todo;
     bad_todo_server.de := good_todo_server.description todo;
     bad_todo_server.pr := good_todo_server.priority todo;
     bad_todo_server.co := good_todo_server.completed todo;
     bad_todo_server.ca := good_todo_server.created_at todo;
     bad_todo_server.updated_at := good_todo_server.updated_at todo |}.

Definition short_entry (entry : Z * good_todo_server.Todo) : Z * bad_todo_server.Todo :=
  (fst entry, short_keys (snd entry)).

Definition short_store (store : good_todo_server.TodoStore) : bad_todo_server.TodoStore :=
  {| bad_todo_server.todos := map short_entry (good_todo_server.todos store);
     bad_todo_server._next_id := good_todo_server._next_id store |}.

Definition short_call (c : good_todo_server.Call) : bad_todo_server.Call :=
  match c with
  | good_todo_server.CreateTodo title description priority now =>
      bad_todo_server.Create title description priority now
  | good_todo_server.ListTodos status => bad_todo_server.List status
  | good_todo_server.UpdateTodo i title description priority completed now =>
      bad_todo_server.Update i title description priority completed now
  | good_todo_server.DeleteTodo i => bad_todo_server.Delete i
  end.

Definition short_reply (r : good_todo_server.Reply) : bad_todo_server.Reply :=
  match r with
  | good_todo_server.TodoReply success todo =>
      bad_todo_server.TodoReply success (short_keys todo)
  | good_todo_server.DeletedReply success todo =>
      bad_todo_server.DeletedReply success (short_keys todo)
  | good_todo_server.ErrorReply success error => bad_todo_server.ErrorReply success error
  | good_todo_server.ListReply todos count total =>
      bad_todo_server.ListReply (map short_keys todos) count total
  end.

Definition short_outcome (r : outcome good_todo_server.Reply) : outcome bad_todo_server.Reply :=
  match r with
  | Ret reply => Ret (short_reply reply)
  | Raise e => Raise e
  end.

Definition short_log (log : list (good_todo_server.Call * outcome good_todo_server.Reply))
  : list (bad_todo_server.Call * outcome bad_todo_server.Reply) :=
  map (fun entry => (short_call (fst entry), short_outcome (snd entry))) log.

End server_variants.

(* ===================================================================== *)
(** * The host: [todo_client.py]                                         *)
(* ===================================================================== *)

Module todo_client.

(** ** Data *)

(** A tool descriptor as discovered from the server.  The client
    guards [description] and [inputSchema] with [hasattr], so either
    attribute may be missing ([None] here); a present attribute holds
    any Python value. *)
Record Tool : Type := {
  name : string;
  description : option json;
  inputSchema : option json
}.

(** [anthropic.types.TextBlock] and [ToolUseBlock] *)
Record TextBlock : Type := { text : string }.

Record ToolUseBlock : Type := {
  tool_id : string;
  tool_name : string;
  tool_input : json
}.

Inductive ContentBlock : Type :=
| Text (block : TextBlock)
| ToolUse (block : ToolUseBlock).

(** [block.type] *)
Definition block_type (block : ContentBlock) : string :=
  match block with
  | Text _ => "text"
  | ToolUse _ => "tool_use"
  end.

(** The [tool_result] dictionary of a user message; the key
    [is_error] is absent from a normal result. *)
Record ToolResult : Type := {
  tool_use_id : string;
  result_content : string;
  is_error : option bool
}.

Inductive MessageContent : Type :=
| Str (s : string)
| Blocks (blocks : list ContentBlock)
| ToolResults (results : list ToolResult).

(** One entry of [messages]. *)
Record Message : Type := { role : string; content : MessageContent }.

(** What [session.call_tool] returns: content items, of which only a
    text item has [.text]; an item of another type (an image, an
    embedded resource) is kept by the name of its type.  [None] is a
    result without the attribute [content] (or with a null one). *)
Inductive Content : Type :=
| TextContent (text : string)
| NonTextContent (type_name : string).

Record CallToolResult : Type := { call_content : option (list Content) }.

(** The calls that leave the process, in order, with what came back:
    a ghost log, read only by the statements below. *)
Inductive Event : Type :=
| ModelCall (messages : list Message) (reply : outcome (list ContentBlock))
| ToolCall (tool_name : string) (arguments : json) (result : outcome CallToolResult).

(** ** The external collaborators *)

Class Externals : Type := {
  (** the state of everything outside the process *)
  World : Type;
  (** [mcp.ClientSession] *)
  ClientSession : Type;
  (** [anthropic_client.messages.create(system=, messages=, tools=)],
      the model, token limit and temperature being constants *)
  messages_create : string -> list Message -> list json -> Py World (list ContentBlock);
  (** [session.call_tool(tool_name, arguments)] *)
  session_call_tool : ClientSession -> string -> json -> Py World CallToolResult;
  (** [json.loads], which raises on malformed text *)
  json_loads : string -> outcome json;
  (** [json.dumps] *)
  json_dumps : json -> string
}.

Section Client.
Context `{E : Externals}.

(** [class TodoMCPClient] *)
Record TodoMCPClient : Type := {
  session : option ClientSession;
  available_tools : list Tool
}.

(** [class TodoChatClient] *)
Record TodoChatClient : Type := {
  mcp_client : TodoMCPClient;
  conversation_history : list Message;
  debug : bool
}.

(** The running host: the client object, the outside world and the
    ghost log. *)
Record Process : Type := {
  self : TodoChatClient;
  world : World;
  trace : list Event
}.

Definition remote {A} (m : Py World A) : Py Process A :=
  fun p =>
    let '(w, r) := m (world p) in
    ({| self := self p; world := w; trace := trace p |}, r).

Definition log (ev : Event) : Py Process unit :=
  modify (fun p => {| self := self p; world := world p; trace := (trace p ++ [ev])%list |}).

(** Run [m], log the event built from its outcome, pass the outcome on. *)
Definition logged {A} (ev : outcome A -> Event) (m : Py Process A) : Py Process A :=
  fun p =>
    let '(p', r) := m p in
    let '(p'', _) := log (ev r) p' in
    (p'', r).

(** [TodoMCPClient.call_tool] *)
Definition call_tool (tool_name : string) (arguments : json) : Py Process CallToolResult :=
  logged (ToolCall tool_name arguments)
    (p <- get ;;
     match session (mcp_client (self p)) with
     | None =>
         raise {| exn_class := RuntimeError;
                  exn_str := "MCP session not initialized. Call connect() first." |}
     | Some session => remote (session_call_tool session tool_name arguments)
     end)%py.

(** ** [convert_to_anthropic_tools] *)

(** The body of the loop over [available_tools]. *)
Definition anthropic_tool (tool : Tool) : json :=
  let params := match inputSchema tool with Some schema => schema | None => JDict [] end in
  JDict
    [ ("name", JString (name tool));
      ("description",
        match description tool with Some d => d | None => JString "" end);
      ("input_schema",
        JDict
          [ ("type", JString "object");
            ("properties",
              match params with
              | JDict d => json_get "properties" (JDict []) d
              | _ => JDict []
              end);
            ("required",
              match params with
              | JDict d => json_get "required" (JList []) d
              | _ => JList []
              end) ]) ].

Definition convert_to_anthropic_tools : Py Process (list json) :=
  (p <- get ;;
   ret (fold_left (fun anthropic_tools tool => (anthropic_tools ++ [anthropic_tool tool])%list)
                  (available_tools (mcp_client (self p))) []))%py.

(** ** [process_with_llm] *)

Definition system_prompt : string :=
  "You are a helpful assistant that manages todos using MCP tools." ++ nl ++
  nl ++
  "You can use these tools to help users manage their todo lists. You may need to:" ++ nl ++
  "- Call multiple tools to complete a request" ++ nl ++
  "- Analyze results from one tool before calling another" ++ nl ++
  "- Ask clarifying questions if a request is ambiguous" ++ nl ++
  "- Provide thoughtful summaries of data" ++ nl ++
  nl ++
  "Approach each request step by step:" ++ nl ++
  "1. Understand what the user wants" ++ nl ++
  "2. Determine which tools you need to use" ++ nl ++
  "3. Execute tools and analyze their results" ++ nl ++
  "4. Continue until you have a complete answer" ++ nl ++
  "5. Provide a clear, helpful response to the user" ++ nl ++
  nl ++
  "Be conversational and helpful in your responses.".

Definition max_iterations : nat := 10.

Definition no_text_answer : string := "I completed the task.".

Definition ssl_certificate_error : string :=
  "ðŸ”’ SSL Certificate Error: Unable to connect to Claude API." ++ nl ++
  nl ++
  "This could be caused by:" ++ nl ++
  "1. Missing Python certificates (common on macOS)" ++ nl ++
  "2. Corporate proxy/firewall (e.g., ZScaler) intercepting SSL" ++ nl ++
  nl ++
  "Possible solutions:" ++ nl ++
  "â€¢ Run: pip install --upgrade certifi" ++ nl ++
  "â€¢ Check with your IT team about proxy certificates" ++ nl ++
  "â€¢ Set proxy environment variables if behind a corporate firewall".

Definition connection_error : string :=
  "ðŸŒ Connection Error: Unable to reach Claude API." ++ nl ++
  "Please check:" ++ nl ++
  "1. Your internet connection" ++ nl ++
  "2. Your ANTHROPIC_API_KEY is valid" ++ nl ++
  "3. If behind a corporate proxy, set HTTPS_PROXY in your .env.local file".

Definition authentication_error : string :=
  "ðŸ”‘ Authentication Error: Invalid API key." ++ nl ++
  "Please check that your ANTHROPIC_API_KEY in .env.local is correct.".

Definition need_more_time : string :=
  "I need more time to complete this request. Please try breaking it into smaller steps.".

(** [[block for block in content if block.type == "tool_use"]]; a
    block that passes the test is a [ToolUseBlock], whose [id], [name]
    and [input] the inner loop then reads. *)
Definition tool_use_blocks (content : list ContentBlock) : list ToolUseBlock :=
  flat_map (fun block =>
              if String.eqb (block_type block) "tool_use"
              then match block with ToolUse b => [b] | Text _ => [] end
              else []) content.

(** [[block for block in content if block.type == "text"]] *)
Definition text_blocks (content : list ContentBlock) : list TextBlock :=
  flat_map (fun block =>
              if String.eqb (block_type block) "text"
              then match block with Text b => [b] | ToolUse _ => [] end
              else []) content.

(** The model call, logged. *)
Definition create_message (tools : list json) (messages : list Message)
  : Py Process (list ContentBlock) :=
  logged (ModelCall messages) (remote (messages_create system_prompt messages tools)).

(** "Parse the result": the payload of a tool response. *)
Definition parse_result (result : CallToolResult) : outcome json :=
  match call_content result with
  | Some (first :: _) =>
      match first with
      | TextContent text => json_loads text
      | NonTextContent type_name =>
          Raise {| exn_class := AttributeError;
                   exn_str := "'" ++ type_name ++ "' object has no attribute 'text'" |}
      end
  | Some [] => Ret (JDict [])
  | None => Ret (JDict [])
  end.

Definition tool_result_message (tool_id : string) (result_data : json) : Message :=
  {| role := "user";
     content := ToolResults [ {| tool_use_id := tool_id;
                                 result_content := json_dumps result_data;
                                 is_error := None |} ] |}.

Definition tool_error_message (tool_id : string) (e : Exn) : Message :=
  {| role := "user";
     content := ToolResults [ {| tool_use_id := tool_id;
                                 result_content := "Error: " ++ exn_str e;
                                 is_error := Some true |} ] |}.

(** The body of [for tool_call in tool_calls]: the inner
    [try]/[except Exception]. *)
Definition execute_tool_call (messages : list Message) (tool_call : ToolUseBlock)
  : Py Process (list Message) :=
  let tool_name := tool_name tool_call in
  let tool_args := tool_input tool_call in
  let tool_id := tool_id tool_call in
  try_except
    (result <- call_tool tool_name tool_args ;;
     result_data <- lift (parse_result result) ;;
     ret (messages ++ [tool_result_message tool_id result_data])%list)%py
    (fun e => ret (messages ++ [tool_error_message tool_id e])%list).

Fixpoint execute_tool_calls (messages : list Message) (tool_calls : list ToolUseBlock)
  : Py Process (list Message) :=
  match tool_calls with
  | [] => ret messages
  | tool_call :: rest =>
      (messages <- execute_tool_call messages tool_call ;;
       execute_tool_calls messages rest)%py
  end.

(** How one pass of the outer loop ends: a [return], or the next pass
    with the extended [messages]. *)
Inductive Step : Type :=
| Return (answer : string)
| Continue (messages : list Message).

(** The body of the outer [try]. *)
Definition iteration_body (tools : list json) (messages : list Message)
  : Py Process Step :=
  (response <- create_message tools messages ;;
   let messages :=
     (messages ++ [ {| role := "assistant"; content := Blocks response |} ])%list in
   let tool_calls := tool_use_blocks response in
   match tool_calls with
   | [] =>
       match text_blocks response with
       | first :: _ => ret (Return (text first))
       | [] => ret (Return no_text_answer)
       end
   | _ :: _ =>
       messages <- execute_tool_calls messages tool_calls ;;
       ret (Continue messages)
   end)%py.

(** The three [except] clauses of the outer [try], in order. *)
Definition on_exception (e : Exn) : string :=
  if isinstance e APIConnectionError then
    let error_msg := lower (exn_str e) in
    if (str_in "certificate" error_msg || str_in "ssl" error_msg)%bool
    then ssl_certificate_error
    else connection_error
  else if isinstance e AuthenticationError then authentication_error
  else "Error: " ++ exn_str e.

Definition iteration (tools : list json) (messages : list Message) : Py Process Step :=
  try_except (iteration_body tools messages) (fun e => ret (Return (on_exception e))).

(** [for iteration in range(n): ...], then the statement after the
    loop. *)
Fixpoint for_range (n : nat) (tools : list json) (messages : list Message)
  : Py Process string :=
  match n with
  | O => ret need_more_time
  | S n' =>
      (step <- iteration tools messages ;;
       match step with
       | Return answer => ret answer
       | Continue messages => for_range n' tools messages
       end)%py
  end.

Definition process_with_llm (user_input : string) : Py Process string :=
  (tools <- convert_to_anthropic_tools ;;
   let messages := [ {| role := "user"; content := Str user_input |} ] in
   for_range max_iterations tools messages)%py.

(** A request handled by a client in a given world, the log empty
    at the start. *)
Definition handle_request (client : TodoChatClient) (w : World) (user_input : string)
  : Process * outcome string :=
  process_with_llm user_input {| self := client; world := w; trace := [] |}.

(** ** Reading the log and the conversation *)

Definition model_calls (evs : list Event) : nat :=
  List.length (flat_map (fun ev => match ev with ModelCall _ _ => [ev] | _ => [] end) evs).

Definition tool_calls_made (evs : list Event) : nat :=
  List.length (flat_map (fun ev => match ev with ToolCall _ _ _ => [ev] | _ => [] end) evs).

(** The ids still owed a result.  Reading the conversation from the
    left: a plain user message and an assistant reply are only
    legal when nothing is owed, a reply then owes its tool-use ids,
    and each tool result must settle the id owed first. *)
Fixpoint settle (owed : list string) (results : list ToolResult) {struct results}
  : option (list string) :=
  match results with
  | [] => Some owed
  | r :: results' =>
      match owed with
      | i :: owed' => if String.eqb i (tool_use_id r) then settle owed' results' else None
      | [] => None
      end
  end.

Fixpoint owed_after (owed : list string) (messages : list Message) : option (list string) :=
  match messages with
  | [] => Some owed
  | m :: messages' =>
      match content m, owed with
      | Str _, [] => owed_after [] messages'
      | Blocks blocks, [] => owed_after (map tool_id (tool_use_blocks blocks)) messages'
      | ToolResults results, _ =>
          match settle owed results with
          | Some owed' => owed_after owed' messages'
          | None => None
          end
      | _, _ => None
      end
  end.

(** Every tool-use block of every reply in [messages] has exactly
    one result, placed before anything else happens. *)
Definition all_answered (messages : list Message) : bool :=
  match owed_after [] messages with
  | Some [] => true
  | _ => false
  end.

(** The conversation passed to each model call of a log is
    [all_answered]. *)
Definition calls_well_formed (evs : list Event) : bool :=
  forallb (fun ev => match ev with
                     | ModelCall messages _ => all_answered messages
                     | ToolCall _ _ _ => true
                     end) evs.

(** A model reply that asks for at least one tool. *)
Definition requests_tools (reply : outcome (list ContentBlock)) : bool :=
  match reply with
  | Ret content => match tool_use_blocks content with [] => false | _ :: _ => true end
  | Raise _ => false
  end.

Definition never_terminal (evs : list Event) : bool :=
  forallb (fun ev => match ev with
                     | ModelCall _ reply => requests_tools reply
                     | ToolCall _ _ _ => true
                     end) evs.

(** [results] answers the tool-use blocks [tool_calls] one for one,
    in order: each message is the normal result or the error result
    of its block, tagged with the block's id. *)
Definition answers (tool_calls : list ToolUseBlock) (results : list Message) : Prop :=
  Forall2 (fun tool_call m =>
             (exists result_data, m = tool_result_message (tool_id tool_call) result_data)
             \/ (exists e, m = tool_error_message (tool_id tool_call) e))
          tool_calls results.

(** The log entries of a round of tool execution: adapter calls only. *)
Definition tool_events (evs : list Event) : Prop :=
  Forall (fun ev => match ev with ToolCall _ _ _ => True | ModelCall _ _ => False end) evs.

(** A field of a JSON object. *)
Definition field (key : string) (j : json) : option json :=
  match j with
  | JDict d => dict_lookup String.eqb key d
  | _ => None
  end.

(** ** More readings of the log *)

(** The adapter calls of a log: tool name and arguments, in order. *)
Definition calls_made (evs : list Event) : list (string * json) :=
  flat_map (fun ev => match ev with
                      | ToolCall tool_name arguments _ => [(tool_name, arguments)]
                      | ModelCall _ _ => []
                      end) evs.

(** What the model asked for: name and input of the tool-use blocks of
    its replies, reply after reply, block after block. *)
Definition calls_requested (evs : list Event) : list (string * json) :=
  flat_map (fun ev => match ev with
                      | ModelCall _ (Ret reply) =>
                          map (fun block => (tool_name block, tool_input block))
                              (tool_use_blocks reply)
                      | _ => []
                      end) evs.

(** The model calls of a log: the conversation sent and what came back. *)
Definition model_exchanges (evs : list Event)
  : list (list Message * outcome (list ContentBlock)) :=
  flat_map (fun ev => match ev with
                      | ModelCall messages reply => [(messages, reply)]
                      | ToolCall _ _ _ => []
                      end) evs.

(** Model calls that continue one conversation: the first one sends
    [expected], and each later one sends what the call before it sent,
    followed by that call's reply and by one result for each tool-use
    block of the reply. *)
Fixpoint chained (expected : list Message)
    (exchanges : list (list Message * outcome (list ContentBlock))) : Prop :=
  match exchanges with
  | [] => True
  | (messages, r) :: rest =>
      messages = expected
      /\ (rest = []
          \/ exists reply results,
              r = Ret reply
              /\ answers (tool_use_blocks reply) results
              /\ chained ((messages ++ [ {| role := "assistant"; content := Blocks reply |} ])
                          ++ results)%list rest)
  end.

(** The error of [TodoMCPClient.call_tool] on a client that never
    connected. *)
Definition not_connected : Exn :=
  {| exn_class := RuntimeError;
     exn_str := "MCP session not initialized. Call connect() first." |}.

End Client.

End todo_client.

(** ** The interactive shell: [chat_loop] *)

Module todo_client_shell.
Import todo_client.

(** What a call of [input] comes to: a line typed (without its
    newline), Ctrl-C, or an exception such as [EOFError].  Ctrl-C is
    modelled at the prompt, where the loop waits. *)
Inductive Keyboard : Type :=
| Typed (line : string)
| Interrupted
| InputFailed (e : Exn).

(** How a pass of [while True] ends, with the lines printed by the
    loop's own [print] calls.  The debug lines that [process_with_llm]
    prints when [self.debug] is set are left out, as everywhere. *)
Inductive Pass : Type :=
| Break (printed : list string)
| Next (printed : list string).

Section Shell.
Context `{E : Externals}.

(** [input(prompt)], reading from the outside world *)
Variable input : string -> World -> World * Keyboard.
(** [str.strip] *)
Variable strip : string -> string.
(** [self.server_emoji] *)
Variable server_emoji : string.

(** [x in words] *)
Definition str_member (x : string) (words : list string) : bool :=
  existsb (String.eqb x) words.

(** One pass of the loop body, the [try] with its two handlers. *)
Definition chat_pass : Process -> Process * Pass :=
  fun p =>
    let '(w, key) := input (server_emoji ++ " You: ") (world p) in
    let p := {| self := self p; world := w; trace := trace p |} in
    match key with
    | Interrupted => (p, Break [ nl ++ server_emoji ++ " Claude: Goodbye!" ])
    | InputFailed e => (p, Next [ "Error: " ++ exn_str e ])
    | Typed line =>
        let user_input := strip line in
        if str_member (lower user_input) [ "quit"; "exit"; "bye" ] then
          (p, Break [ server_emoji ++ " Claude: Goodbye! Your todos are saved." ])
        else if String.eqb user_input "" then
          (p, Next [])
        else
          match process_with_llm user_input p with
          | (p', Ret response) => (p', Next [ server_emoji ++ " Claude: " ++ response ])
          | (p', Raise e) => (p', Next [ "Error: " ++ exn_str e ])
          end
    end.

(** [chat_loop], run for at most [passes] passes: what was printed,
    and whether the loop was left by a [break]. *)
Fixpoint chat_loop (passes : nat) (p : Process) : Process * (list string * bool) :=
  match passes with
  | O => (p, ([], false))
  | S passes' =>
      match chat_pass p with
      | (p', Break printed) => (p', (printed, true))
      | (p', Next printed) =>
          let '(p'', (printed', ended)) := chat_loop passes' p' in
          (p'', ((printed ++ printed')%list, ended))
      end
  end.

End Shell.

End todo_client_shell.

(* ===================================================================== *)
(** * A scripted stand-in for the collaborators                          *)
(* ===================================================================== *)

(** Concrete collaborators, to run the host on examples: the model and
    the tool session each read their next answer off a script. *)
Module scripted.
Import todo_client.

Record Script : Type := {
  model_replies : list (outcome (list ContentBlock));
  tool_replies : list (outcome CallToolResult)
}.

Definition connection_reset : Exn :=
  {| exn_class := {| class_name := "ConnectionResetError";
                     class_bases := [ "ConnectionError"; "OSError"; "Exception" ] |};
     exn_str := "[Errno 104] Connection reset by peer" |}.

Definition next_model_reply : Py Script (list ContentBlock) :=
  fun w =>
    match model_replies w with
    | [] => (w, Ret [])
    | r :: rs => ({| model_replies := rs; tool_replies := tool_replies w |}, r)
    end.

Definition next_tool_reply : Py Script CallToolResult :=
  fun w =>
    match tool_replies w with
    | [] => (w, Raise connection_reset)
    | r :: rs => ({| model_replies := model_replies w; tool_replies := rs |}, r)
    end.

(** Just enough of [json]: the empty object and strings. *)
Definition loads (s : string) : outcome json :=
  if String.eqb s "{}" then Ret (JDict [])
  else if String.eqb s "" then
    Raise {| exn_class := {| class_name := "JSONDecodeError";
                             class_bases := [ "ValueError"; "Exception" ] |};
             exn_str := "Expecting value: line 1 column 1 (char 0)" |}
  else Ret (JString s).

Definition dumps (j : json) : string :=
  match j with
  | JString s => s
  | JDict [] => "{}"
  | _ => "null"
  end.

#[export] Instance externals : Externals := {|
  World := Script;
  ClientSession := unit;
  messages_create := fun _ _ _ => next_model_reply;
  session_call_tool := fun _ _ _ => next_tool_reply;
  json_loads := loads;
  json_dumps := dumps
|}.

Definition create_todo_tool : Tool :=
  {| name := "create_todo";
     description := Some (JString "Add a new task to the todo list with specified details.");
     inputSchema :=
       Some (JDict [ ("properties", JDict [ ("title", JDict [ ("type", JString "string") ]) ]);
                     ("required", JList [ JString "title" ]) ]) |}.

Definition bare_tool : Tool :=
  {| name := "list"; description := None; inputSchema := Some JNull |}.

Definition client : TodoChatClient :=
  {| mcp_client := {| session := Some tt;
                      available_tools := [ create_todo_tool; bare_tool ] |};
     conversation_history := [];
     debug := false |}.

(** A client that never connected. *)
Definition offline_client : TodoChatClient :=
  {| mcp_client := {| session := None; available_tools := [] |};
     conversation_history := [];
     debug := false |}.

Definition buy_milk_call : ToolUseBlock :=
  {| tool_id := "toolu_01"; tool_name := "create_todo";
     tool_input := JDict [ ("title", JString "buy milk") ] |}.

Definition list_all_call : ToolUseBlock :=
  {| tool_id := "toolu_02"; tool_name := "list_todos"; tool_input := JDict [] |}.

Definition buy_milk : ContentBlock := ToolUse buy_milk_call.

Definition list_all : ContentBlock := ToolUse list_all_call.

Definition added : ContentBlock := Text {| text := "I've added 'buy milk' to your list." |}.

Definition certificate_failure : Exn :=
  {| exn_class := APIConnectionError;
     exn_str := "[SSL: CERTIFICATE_VERIFY_FAILED] certificate verify failed" |}.

Definition start (w : Script) : Process :=
  {| self := client; world := w; trace := [] |}.

Definition ask (user_input : string) : Message :=
  {| role := "user"; content := Str user_input |}.

(** A model that asks for a tool every time it is called. *)
Definition tool_hungry : Script :=
  {| model_replies := repeat (Ret [buy_milk]) 12;
     tool_replies := repeat (Ret {| call_content := Some [TextContent "ok"] |}) 12 |}.

(** A model whose only reply is empty, and no tool answers. *)
Definition silent : Script := {| model_replies := [Ret []]; tool_replies := [] |}.

(** A model API that does not answer in time. *)
Definition timed_out : Exn :=
  {| exn_class := APITimeoutError; exn_str := "Request timed out." |}.

Definition too_slow : Script :=
  {| model_replies := [Raise timed_out]; tool_replies := [] |}.

(** A model API that refuses the key. *)
Definition refused : Exn :=
  {| exn_class := AuthenticationError; exn_str := "Error code: 401" |}.

Definition bad_key : Script :=
  {| model_replies := [Raise refused]; tool_replies := [] |}.

(** A model API behind a proxy that breaks TLS. *)
Definition bad_certificate : Script :=
  {| model_replies := [Raise certificate_failure]; tool_replies := [] |}.

(** A model API that is rate limited. *)
Definition overloaded : Exn :=
  {| exn_class := {| class_name := "RateLimitError";
                     class_bases := [ "APIStatusError"; "APIError"; "AnthropicError";
                                      "Exception" ] |};
     exn_str := "Error code: 429" |}.

Definition rate_limited : Script :=
  {| model_replies := [Raise overloaded]; tool_replies := [] |}.

(** A tool server whose answer is not JSON. *)
Definition garbled_response : Script :=
  {| model_replies := []; tool_replies := [Ret {| call_content := Some [TextContent ""] |}] |}.

(** A keyboard that types the same line at every prompt, and one that
    has reached the end of its input. *)
Definition typing (line : string) : string -> Script -> Script * todo_client_shell.Keyboard :=
  fun _ w => (w, todo_client_shell.Typed line).

Definition end_of_file : Exn :=
  {| exn_class := {| class_name := "EOFError"; class_bases := [ "Exception" ] |};
     exn_str := "EOF when reading a line" |}.

Definition end_of_input : string -> Script -> Script * todo_client_shell.Keyboard :=
  fun _ w => (w, todo_client_shell.InputFailed end_of_file).

(** Stripping blanks only. *)
Fixpoint lstrip_blanks (s : string) : string :=
  match s with
  | String c s' => if Ascii.eqb c " " then lstrip_blanks s' else s
  | EmptyString => s
  end.

Definition strip_blanks (s : string) : string :=
  String.rev (lstrip_blanks (String.rev (lstrip_blanks s))).

(** A tool server that answers once, with no content. *)
Definition empty_response : Script :=
  {| model_replies := []; tool_replies := [Ret {| call_content := Some [] |}] |}.

End scripted.

(* ===================================================================== *)
(** * Properties of the task store                                       *)
(* ===================================================================== *)

Module good_todo_server_props.
Import good_todo_server.

Lemma dict_contains_lookup {V} (k : Z) (d : list (Z * V)) :
  dict_contains Z.eqb k d = true -> exists v, dict_lookup Z.eqb k d = Some v.
Proof.
  induction d as [|[k' v'] d IH]; simpl; [discriminate|].
  destruct (Z.eqb k' k); eauto.
Qed.

Lemma dict_contains_keys {V} (k : Z) (d : list (Z * V)) :
  dict_contains Z.eqb k d = false <-> ~ In k (map fst d).
Proof.
  induction d as [|[k' v'] d IH]; simpl; [tauto|].
  destruct (Z.eqb_spec k' k) as [->|Hne]; [split; [discriminate|tauto]|].
  rewrite IH. tauto.
Qed.

Lemma dict_contains_pop {V} (k : Z) (d : list (Z * V)) :
  dict_contains Z.eqb k d = true -> exists v d', dict_pop Z.eqb pretty k d = Ret (v, d').
Proof.
  induction d as [|[k' v'] d IH]; simpl; [discriminate|].
  destruct (Z.eqb k' k); [eauto|].
  intros H. destruct (IH H) as (v & d' & ->). eauto.
Qed.

(** No tool of the server raises, whatever it is asked. *)
Lemma dispatch_returns (c : Call) (store : TodoStore) :
  exists store' reply, dispatch c store = (store', Ret reply).
Proof.
  destruct c as [t d p now|st|i t d p c now|i]; simpl.
  - unfold create_todo, bind, get_next_id, modify, ret. eauto.
  - unfold list_todos, bind, get, ret. eauto.
  - unfold update_todo, bind, get.
    destruct (dict_contains Z.eqb i (todos store)) eqn:Hin; simpl.
    + destruct (dict_contains_lookup _ _ Hin) as [v Hv].
      unfold lift, dict_getitem. rewrite Hv. unfold modify, ret. eauto.
    + unfold ret. eauto.
  - unfold delete_todo, bind, get.
    destruct (dict_contains Z.eqb i (todos store)) eqn:Hin; simpl.
    + destruct (dict_contains_pop _ _ Hin) as (v & d' & Hv).
      unfold lift. rewrite Hv. unfold modify, ret. eauto.
    + unfold ret. eauto.
Qed.

(** Only [create_todo] moves the id counter, by exactly one, and it
    hands out the counter's old value. *)
Lemma dispatch_next_id (c : Call) (store : TodoStore) :
  match c with
  | CreateTodo t d p now =>
      exists todo,
        snd (dispatch c store) = Ret (TodoReply true todo)
        /\ id todo = _next_id store
        /\ _next_id (fst (dispatch c store)) = _next_id store + 1
  | _ => _next_id (fst (dispatch c store)) = _next_id store
  end.
Proof.
  destruct c as [t d p now|st|i t d p c now|i]; simpl.
  - unfold create_todo, bind, get_next_id, modify, ret. simpl. eauto.
  - reflexivity.
  - unfold update_todo, bind, get.
    destruct (dict_contains Z.eqb i (todos store)); simpl; [|reflexivity].
    unfold lift. destruct (dict_getitem _ _ _ _); reflexivity.
  - unfold delete_todo, bind, get.
    destruct (dict_contains Z.eqb i (todos store)); simpl; [|reflexivity].
    unfold lift. destruct (dict_pop _ _ _ _) as [[v d']|e]; reflexivity.
Qed.

Lemma serve_cons (c : Call) (calls : list Call) (store : TodoStore) :
  serve (c :: calls) store =
    (fst (serve calls (fst (dispatch c store))),
     (c, snd (dispatch c store)) :: snd (serve calls (fst (dispatch c store)))).
Proof.
  simpl. destruct (dispatch c store) as [store' r]. simpl.
  destruct (serve calls store') as [store'' log]. reflexivity.
Qed.

(** The ids issued while serving [calls] are the consecutive integers
    from the counter's value at the start. *)
Lemma issued_ids_consecutive (calls : list Call) (store : TodoStore) :
  issued_ids (snd (serve calls store))
  = seqZ (_next_id store) (Z.of_nat (creations calls)).
Proof.
  revert store. induction calls as [|c calls IH]; intros store; [reflexivity|].
  rewrite serve_cons. cbn [snd].
  pose proof (dispatch_next_id c store) as Hc.
  destruct c as [t d p now|st|i t d p cm now|i].
  - destruct Hc as (todo & Hr & Hid & Hnext).
    cbn [issued_ids creations]. rewrite Hr, IH, Hnext, Hid.
    rewrite (seqZ_cons (_next_id store)) by lia.
    f_equal. f_equal; lia.
  - cbn [issued_ids creations].
    destruct (snd (dispatch (ListTodos st) store)) as [[]|];
      rewrite IH, Hc; reflexivity.
  - cbn [issued_ids creations].
    destruct (snd (dispatch (UpdateTodo i t d p cm now) store)) as [[]|];
      rewrite IH, Hc; reflexivity.
  - cbn [issued_ids creations].
    destruct (snd (dispatch (DeleteTodo i) store)) as [[]|];
      rewrite IH, Hc; reflexivity.
Qed.

Lemma seqZ_increasing (m : Z) (n : nat) : StronglySorted Z.lt (seqZ m (Z.of_nat n)).
Proof.
  revert m. induction n as [|n IH]; intros m.
  - rewrite seqZ_nil by lia. constructor.
  - rewrite seqZ_cons by lia.
    replace (Z.pred (Z.of_nat (S n))) with (Z.of_nat n) by lia.
    constructor; [apply IH|].
    apply Forall_seqZ. lia.
Qed.

(** C5: [update_todo] and [delete_todo] asked for an id that is not in
    the store do not raise; each returns, leaving the store as it
    was, the dictionary with [success] false and the error text
    "Todo <id> not found". *)
Theorem missing_todo_is_reported
    (store : TodoStore) (todo_id : Z)
    (title description priority : option string) (completed : option bool)
    (now : string) :
  ~ In todo_id (map fst (todos store)) ->
  let reply := ErrorReply false ("Todo " ++ pretty todo_id ++ " not found") in
  update_todo todo_id title description priority completed now store = (store, Ret reply)
  /\ delete_todo todo_id store = (store, Ret reply)
  /\ success reply = Some false
  /\ error reply = Some ("Todo " ++ pretty todo_id ++ " not found").
Proof.
  intros Habsent reply. apply dict_contains_keys in Habsent.
  unfold update_todo, delete_todo, bind, get. rewrite Habsent. simpl.
  repeat split.
Qed.

Lemma missing_todo_is_reported_witness :
  let store := fst (create_todo "buy milk" "" "medium" "2025-01-01T09:00:00" TodoStore_init) in
  update_todo 99 None None None (Some true) "2025-01-02T10:30:00" store
    = (store, Ret (ErrorReply false "Todo 99 not found"))
  /\ delete_todo 99 store = (store, Ret (ErrorReply false "Todo 99 not found")).
Proof.
  intros store.
  assert (Habsent : ~ In 99 (map fst (todos store))) by (simpl; lia).
  destruct (missing_todo_is_reported store 99 None None None (Some true)
              "2025-01-02T10:30:00" Habsent) as (Hu & Hd & _).
  split; [exact Hu | exact Hd].
Defined.

(** C10: over any sequence of requests served from any store, the ids
    issued by [create_todo] are strictly increasing in the order of
    issue (each is greater than every id issued before it), hence
    pairwise distinct, also across deletions; none is below the
    counter the store started with. *)
Theorem issued_ids_strictly_increasing (calls : list Call) (store : TodoStore) :
  let ids := issued_ids (snd (serve calls store)) in
  StronglySorted Z.lt ids
  /\ NoDup ids
  /\ Forall (fun i => _next_id store <= i) ids
  /\ List.length ids = creations calls.
Proof.
  intros ids. subst ids. rewrite issued_ids_consecutive.
  split; [apply seqZ_increasing|].
  split; [apply NoDup_seqZ|].
  split; [apply Forall_seqZ; lia|].
  rewrite length_seqZ. lia.
Qed.

(** A deleted todo's id is not handed out again. *)
Example id_not_reused_after_delete :
  issued_ids (snd (serve [ CreateTodo "a" "" "low" "t0"; DeleteTodo 1;
                           CreateTodo "b" "" "low" "t1"; ListTodos "all";
                           UpdateTodo 2 None None None (Some true) "t2";
                           CreateTodo "c" "" "high" "t3" ] TodoStore_init))
  = [1; 2; 3].
Proof. reflexivity. Qed.

End good_todo_server_props.

(* ===================================================================== *)
(** * Properties of the host                                             *)
(* ===================================================================== *)

Module todo_client_props.
Import todo_client.
Local Open Scope list_scope.

Section Loop.
Context `{E : Externals}.

(** ** The log *)

Lemma model_calls_app (evs1 evs2 : list Event) :
  model_calls (evs1 ++ evs2) = (model_calls evs1 + model_calls evs2)%nat.
Proof. unfold model_calls. rewrite flat_map_app. apply length_app. Qed.

Lemma tool_calls_made_app (evs1 evs2 : list Event) :
  tool_calls_made (evs1 ++ evs2) = (tool_calls_made evs1 + tool_calls_made evs2)%nat.
Proof. unfold tool_calls_made. rewrite flat_map_app. apply length_app. Qed.

Lemma calls_well_formed_app (evs1 evs2 : list Event) :
  calls_well_formed (evs1 ++ evs2) = (calls_well_formed evs1 && calls_well_formed evs2)%bool.
Proof. apply forallb_app. Qed.

Lemma never_terminal_app (evs1 evs2 : list Event) :
  never_terminal (evs1 ++ evs2) = (never_terminal evs1 && never_terminal evs2)%bool.
Proof. apply forallb_app. Qed.

(** ** The conversation *)

Lemma owed_after_app (owed : list string) (ms1 ms2 : list Message) :
  owed_after owed (ms1 ++ ms2)
  = match owed_after owed ms1 with
    | Some owed' => owed_after owed' ms2
    | None => None
    end.
Proof.
  revert owed. induction ms1 as [|m ms1 IH]; intros owed; [reflexivity|].
  simpl. destruct (content m) as [s|blocks|results].
  - destruct owed; [apply IH|reflexivity].
  - destruct owed; [apply IH|reflexivity].
  - destruct (settle owed results); [apply IH|reflexivity].
Qed.

Lemma owed_after_answers (tool_calls : list ToolUseBlock) (results : list Message) :
  answers tool_calls results ->
  owed_after (map tool_id tool_calls) results = Some [].
Proof.
  induction 1 as [|tool_call m tool_calls results [[data ->]|[e ->]] _ IH];
    [reflexivity| |];
    simpl; rewrite String.eqb_refl; exact IH.
Qed.

Lemma all_answered_round (messages results : list Message) (reply : list ContentBlock) :
  all_answered messages = true ->
  answers (tool_use_blocks reply) results ->
  all_answered
    ((messages ++ [ {| role := "assistant"; content := Blocks reply |} ]) ++ results)
  = true.
Proof.
  unfold all_answered. intros Hm Hr.
  destruct (owed_after [] messages) as [[|i owed]|] eqn:Hmessages; try discriminate.
  rewrite !owed_after_app, Hmessages. simpl.
  rewrite (owed_after_answers _ _ Hr). reflexivity.
Qed.

(** ** The calls *)

Lemma create_message_eq (tools : list json) (messages : list Message) (p : Process) :
  create_message tools messages p
  = let '(w, r) := messages_create system_prompt messages tools (world p) in
    ({| self := self p; world := w; trace := trace p ++ [ModelCall messages r] |}, r).
Proof.
  unfold create_message, logged, remote, log, modify.
  destruct (messages_create system_prompt messages tools (world p)) as [w r].
  reflexivity.
Qed.

Lemma call_tool_eq (tool_name : string) (arguments : json) (p : Process) :
  call_tool tool_name arguments p
  = let '(w, r) :=
      match session (mcp_client (self p)) with
      | None =>
          (world p,
           Raise {| exn_class := RuntimeError;
                    exn_str := "MCP session not initialized. Call connect() first." |})
      | Some session => session_call_tool session tool_name arguments (world p)
      end in
    ({| self := self p; world := w;
        trace := trace p ++ [ToolCall tool_name arguments r] |}, r).
Proof.
  unfold call_tool, logged, bind, get, remote, raise, log, modify.
  destruct (session (mcp_client (self p))) as [session|]; [|reflexivity].
  destruct (session_call_tool session tool_name arguments (world p)) as [w r].
  reflexivity.
Qed.

(** An adapter call is one entry in the log, and leaves the client
    object alone. *)
Lemma call_tool_logged (tool_name : string) (arguments : json) (p : Process) :
  let '(p', r) := call_tool tool_name arguments p in
  self p' = self p /\ trace p' = trace p ++ [ToolCall tool_name arguments r].
Proof.
  rewrite call_tool_eq.
  destruct (match session (mcp_client (self p)) with
            | None => _
            | Some session => _
            end) as [w r].
  split; reflexivity.
Qed.

(** What one pass of the inner loop does, in terms of the adapter
    call it makes. *)
Lemma execute_tool_call_eq (messages : list Message) (tool_call : ToolUseBlock)
    (p : Process) :
  execute_tool_call messages tool_call p
  = let '(p', r) := call_tool (tool_name tool_call) (tool_input tool_call) p in
    (p',
     Ret (messages ++
          [ match r with
            | Ret result =>
                match parse_result result with
                | Ret result_data => tool_result_message (tool_id tool_call) result_data
                | Raise e => tool_error_message (tool_id tool_call) e
                end
            | Raise e => tool_error_message (tool_id tool_call) e
            end ])).
Proof.
  unfold execute_tool_call, try_except, bind, lift, ret.
  destruct (call_tool (tool_name tool_call) (tool_input tool_call) p) as [p' [result|e]];
    [|reflexivity].
  destruct (parse_result result); reflexivity.
Qed.

(** One block, one adapter call, one result carrying the block's id. *)
Lemma execute_tool_call_spec (messages : list Message) (tool_call : ToolUseBlock)
    (p : Process) :
  exists p' r m,
    execute_tool_call messages tool_call p = (p', Ret (messages ++ [m]))
    /\ answers [tool_call] [m]
    /\ self p' = self p
    /\ trace p' = trace p ++ [ToolCall (tool_name tool_call) (tool_input tool_call) r].
Proof.
  rewrite execute_tool_call_eq.
  pose proof (call_tool_logged (tool_name tool_call) (tool_input tool_call) p) as Hlog.
  destruct (call_tool (tool_name tool_call) (tool_input tool_call) p) as [p' r].
  destruct Hlog as [Hself Htrace].
  eexists p', r, _. split; [reflexivity|]. split; [|split; assumption].
  constructor; [|constructor].
  destruct r as [result|e]; [destruct (parse_result result)|]; eauto.
Qed.

Lemma tool_events_facts (evs : list Event) :
  tool_events evs ->
  model_calls evs = 0%nat
  /\ tool_calls_made evs = List.length evs
  /\ calls_well_formed evs = true
  /\ never_terminal evs = true.
Proof.
  induction 1 as [|[ms reply|nm args r] evs Hev _ (IH1 & IH2 & IH3 & IH4)];
    [repeat split| destruct Hev |].
  unfold model_calls, tool_calls_made in *. cbn.
  repeat split; [exact IH1 | f_equal; exact IH2 | exact IH3 | exact IH4].
Qed.

Lemma execute_tool_calls_spec (tool_calls : list ToolUseBlock) (messages : list Message)
    (p : Process) :
  exists p' results evs,
    execute_tool_calls messages tool_calls p = (p', Ret (messages ++ results))
    /\ answers tool_calls results
    /\ self p' = self p
    /\ trace p' = trace p ++ evs
    /\ tool_events evs
    /\ List.length evs = List.length tool_calls.
Proof.
  revert messages p. induction tool_calls as [|tool_call rest IH]; intros messages p.
  - exists p, [], []. simpl. unfold ret. rewrite !app_nil_r.
    repeat split; constructor.
  - destruct (execute_tool_call_spec messages tool_call p)
      as (p1 & r & m & Hcall & Hm & Hself1 & Htrace1).
    destruct (IH (messages ++ [m]) p1)
      as (p2 & results & evs & Hrest & Hres & Hself2 & Htrace2 & Hevs & Hlen).
    exists p2, (m :: results),
      (ToolCall (tool_name tool_call) (tool_input tool_call) r :: evs).
    simpl. unfold bind. rewrite Hcall, Hrest.
    split; [by rewrite <- app_assoc|].
    split; [inversion Hm; subst; by constructor|].
    split; [congruence|].
    split; [rewrite Htrace2, Htrace1; by rewrite <- app_assoc|].
    split; [by constructor|].
    simpl. by rewrite Hlen.
Qed.


(** ** The outer loop *)

(** Every run of the loop returns an answer; what it adds to the log
    is well formed, holds at most [n] model calls, and holds exactly
    [n] of them, the answer being the fixed last line, when no
    reply was terminal. *)
Lemma for_range_spec (n : nat) (tools : list json) (messages : list Message)
    (p : Process) :
  all_answered messages = true ->
  exists p' answer evs,
    for_range n tools messages p = (p', Ret answer)
    /\ self p' = self p
    /\ trace p' = trace p ++ evs
    /\ calls_well_formed evs = true
    /\ (model_calls evs <= n)%nat
    /\ (never_terminal evs = true ->
        answer = need_more_time /\ model_calls evs = n).
Proof.
  revert messages p. induction n as [|n IH]; intros messages p Hmessages.
  - exists p, need_more_time, []. rewrite app_nil_r. repeat split. cbn. lia.
  - cbn [for_range]. unfold bind at 1. unfold iteration, try_except, iteration_body.
    unfold bind at 1. rewrite create_message_eq.
    destruct (messages_create system_prompt messages tools (world p)) as [w [reply|e]].
    + set (p1 := {| self := self p; world := w;
                    trace := trace p ++ [ModelCall messages (Ret reply)] |}).
      destruct (tool_use_blocks reply) as [|tool_call rest] eqn:Hcalls.
      * exists p1,
          (match text_blocks reply with
           | first :: _ => text first
           | [] => no_text_answer
           end),
          [ModelCall messages (Ret reply)].
        split; [destruct (text_blocks reply); reflexivity|].
        split; [reflexivity|]. split; [reflexivity|].
        split; [cbn; by rewrite Hmessages|].
        split; [cbn; lia|].
        cbn. rewrite Hcalls. discriminate.
      * destruct (execute_tool_calls_spec (tool_call :: rest)
                    (messages ++ [ {| role := "assistant"; content := Blocks reply |} ]) p1)
          as (p2 & results & evs & Hrun & Hres & Hself2 & Htrace2 & Hevs & _).
        unfold bind. rewrite Hrun. unfold ret.
        rewrite <- Hcalls in Hres.
        destruct (IH _ p2 (all_answered_round _ _ _ Hmessages Hres))
          as (p3 & answer & evs' & Hloop & Hself3 & Htrace3 & Hwf & Hcount & Hcap).
        destruct (tool_events_facts _ Hevs) as (Hm0 & _ & Hwf0 & Hnt0).
        exists p3, answer, (ModelCall messages (Ret reply) :: evs ++ evs').
        split; [exact Hloop|].
        split; [rewrite Hself3, Hself2; reflexivity|].
        split; [rewrite Htrace3, Htrace2; subst p1; cbn [trace];
                by rewrite <- !app_assoc|].
        split; [cbn [calls_well_formed forallb]; rewrite Hmessages;
                fold (calls_well_formed (evs ++ evs'));
                by rewrite calls_well_formed_app, Hwf0, Hwf|].
        change (ModelCall messages (Ret reply) :: evs ++ evs')
          with ([ModelCall messages (Ret reply)] ++ evs ++ evs').
        rewrite !model_calls_app, !never_terminal_app, Hm0, Hnt0.
        cbn [model_calls flat_map List.length app].
        split; [cbn; lia|].
        intros Hnt. apply andb_prop in Hnt as [_ Hnt]. cbn in Hnt.
        destruct (Hcap Hnt) as [-> <-]. split; [reflexivity|cbn; lia].
    + exists {| self := self p; world := w;
                trace := trace p ++ [ModelCall messages (Raise e)] |}.
      exists (on_exception e), [ModelCall messages (Raise e)].
      split; [reflexivity|]. split; [reflexivity|]. split; [reflexivity|].
      split; [cbn; by rewrite Hmessages|].
      split; [cbn; lia|].
      cbn. discriminate.
Qed.

(** ** The schema translation *)

Lemma fold_left_snoc {A B} (f : A -> B) (l : list A) (acc : list B) :
  fold_left (fun acc x => acc ++ [f x]) l acc = acc ++ map f l.
Proof.
  revert acc. induction l as [|x l IH]; intros acc; simpl.
  - by rewrite app_nil_r.
  - by rewrite IH, <- app_assoc.
Qed.

Lemma convert_to_anthropic_tools_eq (p : Process) :
  convert_to_anthropic_tools p
  = (p, Ret (map anthropic_tool (available_tools (mcp_client (self p))))).
Proof.
  unfold convert_to_anthropic_tools, bind, get, ret.
  by rewrite fold_left_snoc.
Qed.

Lemma handle_request_spec (client : TodoChatClient) (w : World) (user_input : string) :
  exists p' answer,
    handle_request client w user_input = (p', Ret answer)
    /\ self p' = client
    /\ calls_well_formed (trace p') = true
    /\ (model_calls (trace p') <= max_iterations)%nat
    /\ (never_terminal (trace p') = true ->
        answer = need_more_time /\ model_calls (trace p') = max_iterations).
Proof.
  unfold handle_request, process_with_llm. unfold bind at 1.
  rewrite convert_to_anthropic_tools_eq.
  edestruct (for_range_spec max_iterations) as (p' & answer & evs & Hrun & Hself & Htrace & H);
    [|rewrite Hrun; exists p', answer; cbn [trace self app] in *;
      rewrite Htrace; split; [reflexivity|split; [exact Hself|exact H]]].
  reflexivity.
Qed.


(** ** The claims about the loop *)

(** C2: processing a request makes at most [max_iterations] = 10
    model calls and always returns an answer, never an exception;
    when none of the replies was terminal (each asked for a tool),
    exactly ten calls were made and the answer is the fixed "need
    more time" sentence. *)
Theorem at_most_ten_model_calls
    (client : TodoChatClient) (w : World) (user_input : string) :
  let run := handle_request client w user_input in
  (model_calls (trace (fst run)) <= max_iterations)%nat
  /\ max_iterations = 10%nat
  /\ (exists answer, snd run = Ret answer)
  /\ (never_terminal (trace (fst run)) = true ->
      snd run = Ret "I need more time to complete this request. Please try breaking it into smaller steps."
      /\ model_calls (trace (fst run)) = 10%nat).
Proof.
  intros run. subst run.
  destruct (handle_request_spec client w user_input)
    as (p' & answer & -> & _ & _ & Hcount & Hcap).
  cbn [fst snd].
  split; [exact Hcount|]. split; [reflexivity|]. split; [eauto|].
  intros Hnt. destruct (Hcap Hnt) as [-> Hn]. split; [reflexivity|exact Hn].
Qed.

(** C3: the translation never raises and yields one definition per
    descriptor, in order; a definition has the descriptor's name
    and description, and under [input_schema] the schema's
    [properties] and [required] entries when the schema is a
    mapping that has them, the empty mapping and the empty sequence
    when the entry is absent, when the schema is not a mapping, or
    when the descriptor has no schema. *)
Theorem translation_mirrors_schema (p : Process) :
  convert_to_anthropic_tools p
    = (p, Ret (map anthropic_tool (available_tools (mcp_client (self p)))))
  /\ forall tool : Tool,
      let definition := anthropic_tool tool in
      field "name" definition = Some (JString (name tool))
      /\ (forall d, description tool = Some d -> field "description" definition = Some d)
      /\ exists input_schema,
          field "input_schema" definition = Some input_schema
          /\ (forall schema,
                inputSchema tool = Some (JDict schema) ->
                (forall v, dict_lookup String.eqb "properties" schema = Some v ->
                           field "properties" input_schema = Some v)
                /\ (forall v, dict_lookup String.eqb "required" schema = Some v ->
                              field "required" input_schema = Some v)
                /\ (dict_lookup String.eqb "properties" schema = None ->
                    field "properties" input_schema = Some (JDict []))
                /\ (dict_lookup String.eqb "required" schema = None ->
                    field "required" input_schema = Some (JList [])))
          /\ (forall malformed,
                inputSchema tool = Some malformed ->
                (forall schema, malformed <> JDict schema) ->
                field "properties" input_schema = Some (JDict [])
                /\ field "required" input_schema = Some (JList []))
          /\ (inputSchema tool = None ->
              field "properties" input_schema = Some (JDict [])
              /\ field "required" input_schema = Some (JList [])).
Proof.
  split; [apply convert_to_anthropic_tools_eq|].
  intros tool definition. subst definition. unfold anthropic_tool.
  split; [reflexivity|].
  split; [intros d ->; reflexivity|].
  eexists. split; [reflexivity|].
  split; [|split].
  - intros schema ->. unfold json_get. cbn.
    repeat split; try (intros v ->; reflexivity); intros ->; reflexivity.
  - intros malformed -> Hnot.
    destruct malformed; try (split; reflexivity).
    by destruct (Hnot items).
  - intros ->. split; reflexivity.
Qed.

(** C4, as the code has it: when a reply holds no tool-use block,
    the loop stops there, with no further call, and returns the
    text of the reply's first text block, or "I completed the
    task." when the reply holds no text block either. *)
Theorem reply_without_tool_use_is_final
    (n : nat) (tools : list json) (messages : list Message) (p : Process)
    (w' : World) (reply : list ContentBlock) :
  messages_create system_prompt messages tools (world p) = (w', Ret reply) ->
  tool_use_blocks reply = [] ->
  for_range (S n) tools messages p
  = ({| self := self p; world := w';
        trace := trace p ++ [ModelCall messages (Ret reply)] |},
     Ret match text_blocks reply with
         | first :: _ => text first
         | [] => "I completed the task."
         end).
Proof.
  intros Hreply Hcalls. cbn [for_range]. unfold bind at 1.
  unfold iteration, try_except, iteration_body. unfold bind at 1.
  rewrite create_message_eq, Hreply, Hcalls.
  destruct (text_blocks reply); reflexivity.
Qed.

(** C6: when the adapter call for a tool-use block raises, the loop
    makes no second call for it (the log gains that one entry),
    appends the result message with [is_error] true, the text
    "Error: " followed by the exception's message and the block's
    id, and goes on with the remaining blocks of the reply, the
    round ending normally. *)
Theorem failed_tool_call_is_reported
    (messages : list Message) (tool_call : ToolUseBlock) (rest : list ToolUseBlock)
    (p p1 : Process) (e : Exn) :
  call_tool (tool_name tool_call) (tool_input tool_call) p = (p1, Raise e) ->
  let error_result :=
    {| role := "user";
       content := ToolResults [ {| tool_use_id := tool_id tool_call;
                                   result_content := ("Error: " ++ exn_str e)%string;
                                   is_error := Some true |} ] |} in
  execute_tool_call messages tool_call p = (p1, Ret (messages ++ [error_result]))
  /\ trace p1
     = trace p ++ [ToolCall (tool_name tool_call) (tool_input tool_call) (Raise e)]
  /\ execute_tool_calls messages (tool_call :: rest) p
     = execute_tool_calls (messages ++ [error_result]) rest p1
  /\ exists p' results,
      execute_tool_calls messages (tool_call :: rest) p
      = (p', Ret (messages ++ error_result :: results)).
Proof.
  intros Hcall error_result.
  assert (Hone : execute_tool_call messages tool_call p
                 = (p1, Ret (messages ++ [error_result])))
    by (rewrite execute_tool_call_eq, Hcall; reflexivity).
  assert (Hgo : execute_tool_calls messages (tool_call :: rest) p
                = execute_tool_calls (messages ++ [error_result]) rest p1)
    by (cbn [execute_tool_calls]; unfold bind; rewrite Hone; reflexivity).
  split; [exact Hone|]. split.
  - pose proof (call_tool_logged (tool_name tool_call) (tool_input tool_call) p) as Hlog.
    rewrite Hcall in Hlog. apply Hlog.
  - split; [exact Hgo|]. rewrite Hgo.
    destruct (execute_tool_calls_spec rest (messages ++ [error_result]) p1)
      as (p' & results & evs & Hrun & _).
    exists p', results. rewrite Hrun. by rewrite <- app_assoc.
Qed.

(** C7: the payload of a tool response is [json.loads] of the text
    of its first content item, and the empty object when the
    response has an empty content list or none at all; in that
    case, and whenever the text parses, the loop appends a normal
    result (no [is_error]) holding the serialised payload. *)
Theorem tool_response_payload
    (messages : list Message) (tool_call : ToolUseBlock) (p p1 : Process)
    (result : CallToolResult) :
  call_tool (tool_name tool_call) (tool_input tool_call) p = (p1, Ret result) ->
  (forall text others,
      call_content result = Some (TextContent text :: others) ->
      parse_result result = json_loads text
      /\ forall payload,
          json_loads text = Ret payload ->
          execute_tool_call messages tool_call p
          = (p1, Ret (messages ++ [tool_result_message (tool_id tool_call) payload])))
  /\ (call_content result = Some [] \/ call_content result = None ->
      parse_result result = Ret (JDict [])
      /\ execute_tool_call messages tool_call p
         = (p1, Ret (messages ++
                     [ {| role := "user";
                          content :=
                            ToolResults [ {| tool_use_id := tool_id tool_call;
                                             result_content := json_dumps (JDict []);
                                             is_error := None |} ] |} ]))).
Proof.
  intros Hcall. split.
  - intros text0 others Hcontent.
    assert (Hparse : parse_result result = json_loads text0)
      by (unfold parse_result; rewrite Hcontent; reflexivity).
    split; [exact Hparse|].
    intros payload Hloads.
    rewrite execute_tool_call_eq, Hcall, Hparse, Hloads. reflexivity.
  - intros Hcontent.
    assert (Hparse : parse_result result = Ret (JDict []))
      by (unfold parse_result; destruct Hcontent as [-> | ->]; reflexivity).
    split; [exact Hparse|].
    rewrite execute_tool_call_eq, Hcall, Hparse. reflexivity.
Qed.

(** C8: an exception of the model call that is a connection error
    (an [APIConnectionError] or an instance of a class deriving from
    it, such as a timeout) or an authentication error ends the loop
    with a returned text, not an exception: for a connection error the
    SSL remediation text when the lowered message mentions
    "certificate" or "ssl" and the generic connection text otherwise,
    for an authentication error the API-key text; and a request never
    ends in an exception. *)
Theorem model_api_failure_is_explained
    (n : nat) (tools : list json) (messages : list Message) (p : Process)
    (w' : World) (e : Exn) :
  messages_create system_prompt messages tools (world p) = (w', Raise e) ->
  isinstance e APIConnectionError = true \/ isinstance e AuthenticationError = true ->
  for_range (S n) tools messages p
  = ({| self := self p; world := w';
        trace := trace p ++ [ModelCall messages (Raise e)] |},
     Ret (if isinstance e APIConnectionError then
            if (str_in "certificate" (lower (exn_str e))
                || str_in "ssl" (lower (exn_str e)))%bool
            then ssl_certificate_error
            else connection_error
          else authentication_error))
  /\ forall (client : TodoChatClient) (w : World) (user_input : string),
      exists answer, snd (handle_request client w user_input) = Ret answer.
Proof.
  intros Hraise Hclass. split.
  - cbn [for_range]. unfold bind at 1.
    unfold iteration, try_except, iteration_body. unfold bind at 1.
    rewrite create_message_eq, Hraise. unfold ret, on_exception.
    destruct (isinstance e APIConnectionError); [reflexivity|].
    destruct Hclass as [Hclass | ->]; [discriminate|reflexivity].
  - intros client w user_input.
    destruct (handle_request_spec client w user_input) as (p' & answer & -> & _).
    eauto.
Qed.

(** C9: the translation reads the client's descriptors and writes
    nothing: it leaves the whole process state as it found it, and
    run a second time it returns the same definitions. *)
Theorem translation_is_repeatable (p : Process) :
  let first := convert_to_anthropic_tools p in
  let second := convert_to_anthropic_tools (fst first) in
  fst first = p
  /\ fst second = p
  /\ snd second = snd first
  /\ exists definitions, snd first = Ret definitions.
Proof.
  cbn zeta. rewrite !convert_to_anthropic_tools_eq. cbn [fst snd].
  repeat split. eauto.
Qed.

End Loop.

(** ** The claims on the scripted collaborators *)

Import scripted.

(** [all_answered] accepts a reply whose blocks each have their one
    result, and rejects a missing, a doubled and a mistagged result. *)
Example all_answered_examples :
  let reply := {| role := "assistant"; content := Blocks [buy_milk; added; list_all] |} in
  let result_of i := tool_result_message i (JDict []) in
  all_answered [ask "hi"; reply; result_of "toolu_01"; result_of "toolu_02"] = true
  /\ all_answered [ask "hi"; reply; result_of "toolu_01"] = false
  /\ all_answered [ask "hi"; reply; result_of "toolu_01"; result_of "toolu_01";
                   result_of "toolu_02"] = false
  /\ all_answered [ask "hi"; reply; result_of "toolu_01"; result_of "toolu_03"] = false
  /\ all_answered [ask "hi"; reply; result_of "toolu_01"; reply] = false.
Proof. repeat split. Qed.

(** A descriptor without description and with a null schema gets the
    defaults. *)
Example bare_tool_defaults :
  anthropic_tool bare_tool
  = JDict [ ("name", JString "list");
            ("description", JString "");
            ("input_schema", JDict [ ("type", JString "object");
                                     ("properties", JDict []);
                                     ("required", JList []) ]) ].
Proof. reflexivity. Qed.

(** A client that never connected: the adapter's own error reaches the
    conversation as an error result. *)
Example offline_tool_call :
  snd (execute_tool_call [] buy_milk_call
         {| self := offline_client; world := silent; trace := [] |})
  = Ret [ {| role := "user";
             content :=
               ToolResults
                 [ {| tool_use_id := "toolu_01";
                      result_content :=
                        "Error: MCP session not initialized. Call connect() first.";
                      is_error := Some true |} ] |} ].
Proof. reflexivity. Qed.

(** The "buy milk" exchange: one tool round, then the final text. *)
Example buy_milk_exchange :
  let w := {| model_replies := [Ret [buy_milk]; Ret [added]];
              tool_replies := [Ret {| call_content := Some [TextContent "created"] |}] |} in
  let run := handle_request client w "Add a todo to buy milk" in
  snd run = Ret "I've added 'buy milk' to your list."
  /\ model_calls (trace (fst run)) = 2%nat
  /\ tool_calls_made (trace (fst run)) = 1%nat.
Proof. repeat split. Qed.

Lemma at_most_ten_model_calls_witness :
  let run := handle_request client tool_hungry "Add a todo to buy milk" in
  never_terminal (trace (fst run)) = true
  /\ snd run = Ret need_more_time
  /\ model_calls (trace (fst run)) = 10%nat.
Proof.
  intros run.
  assert (Hnt : never_terminal (trace (fst run)) = true) by (vm_compute; reflexivity).
  destruct (at_most_ten_model_calls client tool_hungry "Add a todo to buy milk")
    as (_ & _ & _ & Hcap).
  destruct (Hcap Hnt) as [Hanswer Hcount].
  split; [exact Hnt|]. split; [exact Hanswer|exact Hcount].
Defined.

Lemma translation_mirrors_schema_witness :
  exists input_schema,
    field "input_schema" (anthropic_tool create_todo_tool) = Some input_schema
    /\ field "properties" input_schema
       = Some (JDict [ ("title", JDict [ ("type", JString "string") ]) ])
    /\ field "required" input_schema = Some (JList [ JString "title" ]).
Proof.
  destruct (translation_mirrors_schema (start silent)) as [_ Htool].
  destruct (Htool create_todo_tool) as (_ & _ & input_schema & Hfield & Hschema & _).
  exists input_schema. split; [exact Hfield|].
  destruct (Hschema _ eq_refl) as (Hproperties & Hrequired & _).
  split; [apply Hproperties; reflexivity | apply Hrequired; reflexivity].
Defined.

Lemma reply_without_tool_use_is_final_witness :
  let w := {| model_replies := [Ret [added; added]]; tool_replies := [] |} in
  snd (for_range 10 [] [ask "Add a todo to buy milk"] (start w))
  = Ret "I've added 'buy milk' to your list.".
Proof.
  intros w.
  rewrite (reply_without_tool_use_is_final 9 [] [ask "Add a todo to buy milk"] (start w)
             {| model_replies := []; tool_replies := [] |} [added; added]);
    reflexivity.
Defined.

(** C4 as the claim words it fails: on a reply with neither a
    tool-use block nor a text block the answer is "I completed the
    task.", which is not the string the claim quotes. *)
Lemma fallback_text_counterexample :
  let reply : list ContentBlock := [] in
  let run := handle_request client {| model_replies := [Ret reply]; tool_replies := [] |}
               "Anything else?" in
  tool_use_blocks reply = []
  /\ text_blocks reply = []
  /\ snd run = Ret "I completed the task."
  /\ snd run <> Ret "task completed with no further detail".
Proof. repeat split. discriminate. Qed.

Lemma failed_tool_call_is_reported_witness :
  let p := start silent in
  let p1 := fst (call_tool "create_todo" (tool_input buy_milk_call) p) in
  let error_result :=
    {| role := "user";
       content :=
         ToolResults [ {| tool_use_id := "toolu_01";
                          result_content := "Error: [Errno 104] Connection reset by peer";
                          is_error := Some true |} ] |} in
  call_tool "create_todo" (tool_input buy_milk_call) p = (p1, Raise connection_reset)
  /\ execute_tool_call [ask "Add milk"] buy_milk_call p
     = (p1, Ret [ask "Add milk"; error_result])
  /\ tool_calls_made (trace p1) = 1%nat.
Proof.
  intros p p1 error_result.
  assert (Hcall : call_tool (tool_name buy_milk_call) (tool_input buy_milk_call) p
                  = (p1, Raise connection_reset)) by reflexivity.
  destruct (failed_tool_call_is_reported [ask "Add milk"] buy_milk_call [list_all_call]
              p p1 connection_reset Hcall) as (Hone & Htrace & _).
  split; [exact Hcall|]. split; [exact Hone|].
  rewrite Htrace. reflexivity.
Defined.

Lemma tool_response_payload_witness :
  let p := start empty_response in
  let p1 := fst (call_tool "list_todos" (JDict []) p) in
  call_tool "list_todos" (JDict []) p = (p1, Ret {| call_content := Some [] |})
  /\ execute_tool_call [] list_all_call p
     = (p1, Ret [ {| role := "user";
                     content := ToolResults [ {| tool_use_id := "toolu_02";
                                                 result_content := "{}";
                                                 is_error := None |} ] |} ]).
Proof.
  intros p p1.
  assert (Hcall : call_tool (tool_name list_all_call) (tool_input list_all_call) p
                  = (p1, Ret {| call_content := Some [] |})) by reflexivity.
  destruct (tool_response_payload [] list_all_call p p1 _ Hcall) as [_ Hempty].
  destruct (Hempty (or_introl eq_refl)) as [_ Hrun].
  split; [exact Hcall | exact Hrun].
Defined.

Lemma model_api_failure_is_explained_witness :
  snd (for_range 10 [] [ask "Show me all my todos"] (start bad_certificate))
  = Ret ssl_certificate_error
  /\ snd (for_range 10 [] [ask "Show me all my todos"] (start too_slow))
     = Ret connection_error
  /\ snd (for_range 10 [] [ask "Show me all my todos"] (start bad_key))
     = Ret authentication_error.
Proof.
  destruct (model_api_failure_is_explained 9 [] [ask "Show me all my todos"]
              (start bad_certificate) {| model_replies := []; tool_replies := [] |}
              certificate_failure eq_refl (or_introl eq_refl)) as [Hssl _].
  destruct (model_api_failure_is_explained 9 [] [ask "Show me all my todos"]
              (start too_slow) {| model_replies := []; tool_replies := [] |}
              timed_out eq_refl (or_introl eq_refl)) as [Hslow _].
  destruct (model_api_failure_is_explained 9 [] [ask "Show me all my todos"]
              (start bad_key) {| model_replies := []; tool_replies := [] |}
              refused eq_refl (or_intror eq_refl)) as [Hkey _].
  rewrite Hssl, Hslow, Hkey. repeat split.
Defined.

End todo_client_props.

(* ===================================================================== *)
(** * More on the task store                                             *)
(* ===================================================================== *)

Module good_todo_server_store.
Import good_todo_server.
Local Open Scope list_scope.

(** ** Dictionary facts *)

Lemma lookup_setitem {V} (k k' : Z) (v : V) (d : list (Z * V)) :
  dict_lookup Z.eqb k' (dict_setitem Z.eqb k v d)
  = if Z.eqb k k' then Some v else dict_lookup Z.eqb k' d.
Proof.
  induction d as [|[k0 v0] d IH]; simpl; [reflexivity|].
  destruct (Z.eqb_spec k0 k) as [->|Hne]; simpl.
  - destruct (Z.eqb k k'); reflexivity.
  - rewrite IH. destruct (Z.eqb_spec k0 k') as [->|Hne'].
    + destruct (Z.eqb_spec k k'); [congruence|reflexivity].
    + reflexivity.
Qed.

Lemma contains_lookup {V} (k : Z) (d : list (Z * V)) :
  dict_contains Z.eqb k d = match dict_lookup Z.eqb k d with Some _ => true | None => false end.
Proof.
  induction d as [|[k0 v0] d IH]; simpl; [reflexivity|].
  destruct (Z.eqb k0 k); [reflexivity|exact IH].
Qed.

Lemma contains_keys {V} (k : Z) (d : list (Z * V)) :
  dict_contains Z.eqb k d = true <-> In k (map fst d).
Proof.
  induction d as [|[k0 v0] d IH]; simpl; [split; [discriminate|tauto]|].
  destruct (Z.eqb_spec k0 k) as [->|Hne]; [tauto|].
  rewrite IH. tauto.
Qed.

Lemma setitem_fresh {V} (k : Z) (v : V) (d : list (Z * V)) :
  ~ In k (map fst d) -> dict_setitem Z.eqb k v d = d ++ [(k, v)].
Proof.
  induction d as [|[k0 v0] d IH]; simpl; [reflexivity|].
  intros Hfresh. destruct (Z.eqb_spec k0 k) as [->|Hne]; [tauto|].
  rewrite IH by tauto. reflexivity.
Qed.

Lemma setitem_keys {V} (k : Z) (v : V) (d : list (Z * V)) :
  In k (map fst d) -> map fst (dict_setitem Z.eqb k v d) = map fst d.
Proof.
  induction d as [|[k0 v0] d IH]; simpl; [tauto|].
  intros Hin. destruct (Z.eqb_spec k0 k) as [->|Hne]; simpl; [reflexivity|].
  rewrite IH by (destruct Hin; [congruence|assumption]). reflexivity.
Qed.

Lemma setitem_twice {V} (k : Z) (v : V) (d : list (Z * V)) :
  dict_setitem Z.eqb k v (dict_setitem Z.eqb k v d) = dict_setitem Z.eqb k v d.
Proof.
  induction d as [|[k0 v0] d IH]; simpl.
  - rewrite Z.eqb_refl. reflexivity.
  - destruct (Z.eqb k0 k) eqn:Hk; simpl; rewrite Hk; [reflexivity|].
    rewrite IH. reflexivity.
Qed.

Lemma setitem_Forall {V} (P : Z * V -> Prop) (k : Z) (v : V) (d : list (Z * V)) :
  Forall P d -> P (k, v) -> Forall P (dict_setitem Z.eqb k v d).
Proof.
  intros Hd Hv. induction Hd as [|[k0 v0] d H0 Hd IH]; simpl.
  - constructor; [exact Hv|constructor].
  - destruct (Z.eqb_spec k0 k) as [->|Hne]; constructor; assumption.
Qed.

(** A successful [pop] takes out the first entry under the key. *)
Lemma pop_split {V} (k : Z) (d d' : list (Z * V)) (v : V) :
  dict_pop Z.eqb pretty k d = Ret (v, d') ->
  exists d1 d2,
    d = d1 ++ (k, v) :: d2 /\ d' = d1 ++ d2 /\ ~ In k (map fst d1).
Proof.
  revert d'. induction d as [|[k0 v0] d IH]; intros d'; simpl; [discriminate|].
  destruct (Z.eqb_spec k0 k) as [->|Hne].
  - intros [= <- <-]. exists [], d. simpl. tauto.
  - destruct (dict_pop Z.eqb pretty k d) as [[v1 d1']|e]; [|discriminate].
    intros [= <- <-].
    destruct (IH _ eq_refl) as (d1 & d2 & Hd & Hd' & Hfresh).
    exists ((k0, v0) :: d1), d2. simpl. rewrite Hd, Hd'.
    split; [reflexivity|]. split; [reflexivity|]. intros [?|?]; [congruence|tauto].
Qed.

Lemma lookup_app_fresh {V} (k : Z) (d1 d2 : list (Z * V)) :
  ~ In k (map fst d1) ->
  dict_lookup Z.eqb k (d1 ++ d2) = dict_lookup Z.eqb k d2.
Proof.
  induction d1 as [|[k0 v0] d1 IH]; simpl; [reflexivity|].
  intros Hfresh. destruct (Z.eqb_spec k0 k) as [->|Hne]; [tauto|].
  apply IH. tauto.
Qed.

Lemma lookup_absent {V} (k : Z) (d : list (Z * V)) :
  ~ In k (map fst d) -> dict_lookup Z.eqb k d = None.
Proof.
  intros Hfresh. destruct (dict_lookup Z.eqb k d) eqn:Hlookup; [|reflexivity].
  exfalso. apply Hfresh, contains_keys. rewrite contains_lookup, Hlookup. reflexivity.
Qed.


Lemma lookup_In {V} (k : Z) (v : V) (d : list (Z * V)) :
  dict_lookup Z.eqb k d = Some v -> In (k, v) d.
Proof.
  induction d as [|[k0 v0] d IH]; simpl; [discriminate|].
  destruct (Z.eqb_spec k0 k) as [->|Hne]; [intros [= ->]; tauto|auto].
Qed.

(** ** What each tool does to the store *)

Lemma create_todo_eq (title description priority now : string) (store : TodoStore) :
  let todo := {| id := _next_id store; title := title; description := description;
                 priority := priority; completed := false;
                 created_at := now; updated_at := None |} in
  create_todo title description priority now store
  = ({| todos := dict_setitem Z.eqb (_next_id store) todo (todos store);
        _next_id := _next_id store + 1 |},
     Ret (TodoReply true todo)).
Proof. reflexivity. Qed.

Lemma update_todo_found (todo_id : Z) (title description priority : option string)
    (completed : option bool) (now : string) (store : TodoStore) (todo : Todo) :
  find todo_id store = Some todo ->
  let todo' := updated todo title description priority completed now in
  update_todo todo_id title description priority completed now store
  = ({| todos := dict_setitem Z.eqb todo_id todo' (todos store);
        _next_id := _next_id store |},
     Ret (TodoReply true todo')).
Proof.
  intros Hfind todo'. unfold find in Hfind.
  unfold update_todo, bind, get. rewrite contains_lookup, Hfind. simpl.
  unfold lift, dict_getitem. rewrite Hfind. reflexivity.
Qed.

Lemma update_todo_missing (todo_id : Z) (title description priority : option string)
    (completed : option bool) (now : string) (store : TodoStore) :
  find todo_id store = None ->
  update_todo todo_id title description priority completed now store
  = (store, Ret (ErrorReply false (not_found todo_id))).
Proof.
  unfold find. intros Hfind.
  unfold update_todo, bind, get. rewrite contains_lookup, Hfind. reflexivity.
Qed.

Lemma delete_todo_found (todo_id : Z) (store : TodoStore) (todo : Todo) :
  find todo_id store = Some todo ->
  exists d1 d2,
    todos store = d1 ++ (todo_id, todo) :: d2
    /\ ~ In todo_id (map fst d1)
    /\ delete_todo todo_id store
       = ({| todos := d1 ++ d2; _next_id := _next_id store |},
          Ret (DeletedReply true todo)).
Proof.
  unfold find. intros Hfind.
  assert (Hin : dict_contains Z.eqb todo_id (todos store) = true)
    by (rewrite contains_lookup, Hfind; reflexivity).
  destruct (good_todo_server_props.dict_contains_pop _ _ Hin) as (v & d' & Hpop).
  destruct (pop_split _ _ _ _ Hpop) as (d1 & d2 & Hd & -> & Hfresh).
  assert (v = todo) as ->.
  { rewrite Hd, lookup_app_fresh in Hfind by exact Hfresh.
    simpl in Hfind. rewrite Z.eqb_refl in Hfind. congruence. }
  exists d1, d2. split; [exact Hd|]. split; [exact Hfresh|].
  unfold delete_todo, bind, get. rewrite Hin. simpl.
  unfold lift. rewrite Hpop. reflexivity.
Qed.

Lemma delete_todo_missing (todo_id : Z) (store : TodoStore) :
  find todo_id store = None ->
  delete_todo todo_id store = (store, Ret (ErrorReply false (not_found todo_id))).
Proof.
  unfold find. intros Hfind.
  unfold delete_todo, bind, get. rewrite contains_lookup, Hfind. reflexivity.
Qed.

(** ** The invariant *)

Lemma store_ok_fresh (store : TodoStore) :
  store_ok store -> ~ In (_next_id store) (ids store).
Proof.
  intros (_ & _ & Hbound & _) Hin.
  rewrite Forall_forall in Hbound. apply list_elem_of_In in Hin.
  specialize (Hbound _ Hin). lia.
Qed.

Lemma dispatch_keeps_store_ok (c : Call) (store : TodoStore) :
  store_ok store -> store_ok (fst (dispatch c store)).
Proof.
  intros Hok. pose proof (store_ok_fresh _ Hok) as Hfresh.
  destruct Hok as (Hsorted & Hpos & Hbound & Hids).
  destruct c as [t d p now|st|i t d p cm now|i]; cbn [dispatch].
  - rewrite create_todo_eq. cbn [fst]. unfold store_ok, ids in *. cbn [todos _next_id].
    rewrite setitem_fresh by exact Hfresh. rewrite map_app. cbn [map fst].
    split; [|split; [lia|split]].
    + apply StronglySorted_app_2; [|exact Hsorted|repeat constructor].
      intros x1 x2 Hx1 Hx2. apply list_elem_of_singleton in Hx2 as ->.
      rewrite Forall_forall in Hbound. specialize (Hbound _ Hx1). lia.
    + apply Forall_app. split; [|repeat constructor; lia].
      eapply Forall_impl; [exact Hbound|]. cbn. intros; lia.
    + apply Forall_app. split; [exact Hids|repeat constructor].
  - repeat split; assumption.
  - destruct (find i store) as [todo|] eqn:Hfind.
    + rewrite (update_todo_found _ _ _ _ _ _ _ _ Hfind). cbn [fst].
      unfold store_ok, ids in *. cbn [todos _next_id].
      assert (Hin : In i (map fst (todos store)))
        by (apply contains_keys; rewrite contains_lookup; unfold find in Hfind;
            rewrite Hfind; reflexivity).
      rewrite setitem_keys by exact Hin.
      split; [exact Hsorted|]. split; [exact Hpos|]. split; [exact Hbound|].
      apply setitem_Forall; [exact Hids|]. cbn.
      rewrite Forall_forall in Hids.
      apply (Hids (i, todo)), list_elem_of_In, lookup_In, Hfind.
    + rewrite (update_todo_missing _ _ _ _ _ _ _ Hfind). repeat split; assumption.
  - destruct (find i store) as [todo|] eqn:Hfind.
    + destruct (delete_todo_found _ _ _ Hfind) as (d1 & d2 & Hd & _ & ->). cbn [fst].
      unfold store_ok, ids in *. cbn [todos _next_id]. rewrite Hd in *.
      rewrite map_app in *. cbn [map fst] in *.
      apply StronglySorted_app in Hsorted as (Hcross & Hs1 & Hs2).
      apply StronglySorted_cons in Hs2 as [_ Hs2].
      apply Forall_app in Hbound as [Hb1 Hb2]. apply Forall_cons in Hb2 as [_ Hb2].
      apply Forall_app in Hids as [Hi1 Hi2]. apply Forall_cons in Hi2 as [_ Hi2].
      split; [|split; [exact Hpos|split; apply Forall_app; split; assumption]].
      apply StronglySorted_app_2; [|assumption..].
      intros x1 x2 Hx1 Hx2. apply Hcross; [exact Hx1|]. by apply list_elem_of_further.
    + rewrite (delete_todo_missing _ _ Hfind). repeat split; assumption.
Qed.

Lemma serve_keeps_store_ok (calls : list Call) (store : TodoStore) :
  store_ok store -> store_ok (fst (serve calls store)).
Proof.
  revert store. induction calls as [|c calls IH]; intros store Hok; [exact Hok|].
  rewrite good_todo_server_props.serve_cons. cbn [fst].
  apply IH, dispatch_keeps_store_ok, Hok.
Qed.

Lemma serve_next_id (calls : list Call) (store : TodoStore) :
  _next_id (fst (serve calls store)) = _next_id store + Z.of_nat (creations calls).
Proof.
  revert store. induction calls as [|c calls IH]; intros store; [simpl; lia|].
  rewrite good_todo_server_props.serve_cons. cbn [fst]. rewrite IH.
  pose proof (good_todo_server_props.dispatch_next_id c store) as Hc.
  destruct c; cbn [creations];
    [destruct Hc as (todo & _ & _ & Hnext); rewrite Hnext|rewrite Hc..]; lia.
Qed.


Lemma lookup_app_dict {V} (k : Z) (d1 d2 : list (Z * V)) :
  dict_lookup Z.eqb k (d1 ++ d2)
  = match dict_lookup Z.eqb k d1 with
    | Some v => Some v
    | None => dict_lookup Z.eqb k d2
    end.
Proof.
  induction d1 as [|[k0 v0] d1 IH]; simpl; [reflexivity|].
  destruct (Z.eqb k0 k); [reflexivity|exact IH].
Qed.

Lemma pop_fresh_snoc {V} (k : Z) (v : V) (d : list (Z * V)) :
  ~ In k (map fst d) -> dict_pop Z.eqb pretty k (d ++ [(k, v)]) = Ret (v, d).
Proof.
  induction d as [|[k0 v0] d IH]; simpl.
  - rewrite Z.eqb_refl. reflexivity.
  - intros Hfresh. destruct (Z.eqb_spec k0 k) as [->|Hne]; [tauto|].
    rewrite IH by tauto. reflexivity.
Qed.

Lemma or_keep_twice {A} (new : option A) (old : A) :
  or_keep new (or_keep new old) = or_keep new old.
Proof. destruct new; reflexivity. Qed.

Lemma filter_Is_true {A} (b : A -> bool) (l : list A) :
  filter (fun x => Is_true (b x)) l = List.filter b l.
Proof.
  induction l as [|x l IH]; [reflexivity|].
  rewrite filter_cons. cbn [List.filter]. rewrite IH.
  destruct (decide (Is_true (b x))) as [Hb|Hb]; destruct (b x);
    try reflexivity; [destruct Hb | destruct Hb; exact I].
Qed.

Lemma listed_eq (status : string) (store : TodoStore) :
  listed (snd (list_todos status store))
  = List.filter (fun todo : Todo =>
                   String.eqb status "all"
                   || (String.eqb status "completed" && completed todo)
                   || (String.eqb status "pending" && negb (completed todo)))
                (map snd (todos store)).
Proof.
  unfold list_todos, bind, get, ret, dict_values. cbn [snd listed].
  apply filter_Is_true.
Qed.

Lemma init_store_ok : store_ok TodoStore_init.
Proof. repeat split; cbn; try constructor. lia. Qed.

(** ** Properties *)

(** X1: No tool function raises, whatever arguments and whatever store
    it is called with: every call of a run returns its dictionary,
    although subscripting and [pop] raise [KeyError] on a missing key.
    (A request that fails the declared field patterns is turned down
    by the framework before the function is called; that is not a
    raise of the function.) *)
Theorem tool_functions_never_raise (calls : list Call) (store : TodoStore) :
  Forall (fun entry : Call * outcome Reply => exists reply, snd entry = Ret reply)
         (snd (serve calls store)).
Proof.
  revert store. induction calls as [|c calls IH]; intros store; [constructor|].
  rewrite good_todo_server_props.serve_cons. cbn [snd].
  constructor; [|apply IH].
  destruct (good_todo_server_props.dispatch_returns c store) as (store' & reply & ->).
  cbn. eauto.
Qed.

(** X2: Whatever requests a fresh server has handled, the keys of its
    store grow along the dictionary, lie between 1 and the id counter,
    and every todo is stored under its own [id]. *)
Theorem store_ok_after_any_calls (calls : list Call) :
  store_ok (fst (serve calls TodoStore_init)).
Proof. apply serve_keeps_store_ok, init_store_ok. Qed.

(** X3: On a server started fresh, [list_todos("all")] shows every stored
    todo oldest first: the ids listed are the store's keys, in strictly
    increasing order. *)
Theorem listing_is_in_id_order (calls : list Call) :
  let store := fst (serve calls TodoStore_init) in
  let shown := listed (snd (list_todos "all" store)) in
  map id shown = ids store
  /\ StronglySorted Z.lt (map id shown)
  /\ List.length shown = List.length (todos store).
Proof.
  intros store shown.
  destruct (serve_keeps_store_ok calls TodoStore_init init_store_ok)
    as (Hsorted & _ & _ & Hids).
  fold store in Hsorted, Hids.
  assert (Hshown : shown = map snd (todos store)).
  { subst shown. rewrite listed_eq. cbn.
    induction (map snd (todos store)) as [|todo l IH]; [reflexivity|].
    cbn. f_equal. exact IH. }
  assert (Hmap : map id shown = ids store).
  { rewrite Hshown. unfold ids. clear Hshown shown Hsorted.
    induction Hids as [|entry d Hentry _ IH]; [reflexivity|].
    cbn. rewrite Hentry, IH. reflexivity. }
  split; [exact Hmap|]. split; [rewrite Hmap; exact Hsorted|].
  rewrite Hshown. apply length_map.
Qed.

(** X4: When the id counter is not yet a key, [create_todo] appends the new
    todo, pending and without [updated_at], under the counter's value,
    advances the counter by one and changes no other entry. *)
Theorem create_todo_appends
    (title description priority now : string) (store : TodoStore) :
  ~ In (_next_id store) (ids store) ->
  let todo := {| id := _next_id store; title := title; description := description;
                 priority := priority; completed := false;
                 created_at := now; updated_at := None |} in
  let store' := {| todos := todos store ++ [(_next_id store, todo)];
                   _next_id := _next_id store + 1 |} in
  create_todo title description priority now store = (store', Ret (TodoReply true todo))
  /\ find (_next_id store) store' = Some todo
  /\ forall k, k <> _next_id store -> find k store' = find k store.
Proof.
  intros Hfresh todo store'.
  split; [rewrite create_todo_eq; unfold store'; by rewrite setitem_fresh|].
  unfold find, store'. cbn [todos]. split.
  - rewrite lookup_app_fresh by exact Hfresh. cbn. by rewrite Z.eqb_refl.
  - intros k Hk. rewrite lookup_app_dict. cbn.
    destruct (Z.eqb_spec (_next_id store) k); [congruence|].
    by destruct (dict_lookup Z.eqb k (todos store)).
Qed.

Lemma create_todo_appends_witness :
  let store := fst (create_todo "buy milk" "" "medium" "t0" TodoStore_init) in
  ~ In (_next_id store) (ids store)
  /\ ids (fst (create_todo "call mum" "" "high" "t1" store)) = [1; 2].
Proof.
  intros store.
  assert (Hfresh : ~ In (_next_id store) (ids store)) by (cbn; lia).
  destruct (create_todo_appends "call mum" "" "high" "t1" store Hfresh) as (Hrun & _).
  split; [exact Hfresh|]. rewrite Hrun. reflexivity.
Defined.

(** X5: [delete_todo] on a stored id returns the stored todo with
    [success] true, leaves the counter and every other entry alone,
    and removes the id: a second [delete_todo] of it reports that the
    todo is not found. *)
Theorem delete_todo_removes (todo_id : Z) (store : TodoStore) (todo : Todo) :
  NoDup (ids store) ->
  find todo_id store = Some todo ->
  exists store',
    delete_todo todo_id store = (store', Ret (DeletedReply true todo))
    /\ _next_id store' = _next_id store
    /\ find todo_id store' = None
    /\ (forall k, k <> todo_id -> find k store' = find k store)
    /\ S (List.length (todos store')) = List.length (todos store)
    /\ delete_todo todo_id store'
       = (store', Ret (ErrorReply false ("Todo " ++ pretty todo_id ++ " not found")%string)).
Proof.
  intros Hnodup Hfind.
  destruct (delete_todo_found _ _ _ Hfind) as (d1 & d2 & Hd & Hfresh1 & Hrun).
  assert (Hfresh2 : ~ In todo_id (map fst d2)).
  { unfold ids in Hnodup. rewrite Hd, map_app in Hnodup. cbn in Hnodup.
    apply NoDup_app in Hnodup as (_ & _ & Hnodup). apply NoDup_cons in Hnodup as [Hnot _].
    intros Hin. apply Hnot, list_elem_of_In, Hin. }
  assert (Hgone : find todo_id {| todos := d1 ++ d2; _next_id := _next_id store |} = None).
  { unfold find. cbn. rewrite lookup_app_fresh by exact Hfresh1.
    by apply lookup_absent. }
  eexists. split; [exact Hrun|]. split; [reflexivity|]. split; [exact Hgone|].
  split; [|split].
  - intros k Hk. unfold find. cbn. rewrite Hd, !lookup_app_dict. cbn.
    destruct (Z.eqb_spec todo_id k); [congruence|reflexivity].
  - cbn. rewrite Hd, !length_app. cbn. lia.
  - apply delete_todo_missing, Hgone.
Qed.

Lemma delete_todo_removes_witness :
  let store := fst (serve [ CreateTodo "buy milk" "" "medium" "t0";
                            CreateTodo "call mum" "" "high" "t1" ] TodoStore_init) in
  ids (fst (delete_todo 1 store)) = [2]
  /\ snd (delete_todo 1 (fst (delete_todo 1 store)))
     = Ret (ErrorReply false "Todo 1 not found").
Proof.
  intros store.
  assert (Hnodup : NoDup (ids store)).
  { apply NoDup_ListNoDup. cbn.
    constructor; [cbn; lia|constructor; [cbn; tauto|constructor]]. }
  destruct (delete_todo_removes 1 store _ Hnodup eq_refl)
    as (store' & Hrun & _ & _ & _ & _ & Hagain).
  assert (Hstore : fst (delete_todo 1 store) = store') by (rewrite Hrun; reflexivity).
  rewrite Hstore, Hagain. split; [|reflexivity].
  rewrite <- Hstore. reflexivity.
Defined.

(** X6: [update_todo] on a stored id replaces exactly the fields it was
    given, keeps [id] and [created_at], stamps [updated_at], stores the
    result under the same key at the same place, and leaves the
    counter and every other entry alone. *)
Theorem update_todo_changes_given_fields
    (todo_id : Z) (title description priority : option string)
    (completed : option bool) (now : string) (store : TodoStore) (todo : Todo) :
  find todo_id store = Some todo ->
  exists store' todo',
    update_todo todo_id title description priority completed now store
    = (store', Ret (TodoReply true todo'))
    /\ find todo_id store' = Some todo'
    /\ (forall k, k <> todo_id -> find k store' = find k store)
    /\ ids store' = ids store
    /\ _next_id store' = _next_id store
    /\ id todo' = id todo
    /\ created_at todo' = created_at todo
    /\ updated_at todo' = Some now
    /\ good_todo_server.title todo'
       = match title with Some t => t | None => good_todo_server.title todo end
    /\ good_todo_server.description todo'
       = match description with Some d => d | None => good_todo_server.description todo end
    /\ good_todo_server.priority todo'
       = match priority with Some p => p | None => good_todo_server.priority todo end
    /\ good_todo_server.completed todo'
       = match completed with Some c => c | None => good_todo_server.completed todo end.
Proof.
  intros Hfind.
  eexists _, _. split; [apply (update_todo_found _ _ _ _ _ _ _ _ Hfind)|].
  unfold find, ids. cbn [todos _next_id].
  split; [rewrite lookup_setitem, Z.eqb_refl; reflexivity|].
  split.
  { intros k Hk. rewrite lookup_setitem.
    destruct (Z.eqb_spec todo_id k); [congruence|reflexivity]. }
  split.
  { apply setitem_keys, contains_keys. rewrite contains_lookup.
    unfold find in Hfind. by rewrite Hfind. }
  repeat split.
Qed.

Lemma update_todo_changes_given_fields_witness :
  let store := fst (serve [ CreateTodo "buy milk" "" "medium" "t0";
                            CreateTodo "call mum" "" "high" "t1" ] TodoStore_init) in
  exists todo',
    snd (update_todo 1 None None None (Some true) "t2" store) = Ret (TodoReply true todo')
    /\ good_todo_server.title todo' = "buy milk"
    /\ good_todo_server.completed todo' = true
    /\ updated_at todo' = Some "t2".
Proof.
  intros store.
  destruct (update_todo_changes_given_fields 1 None None None (Some true) "t2" store _ eq_refl)
    as (store' & todo' & Hrun & _ & _ & _ & _ & _ & _ & Hstamp & Htitle & _ & _ & Hdone).
  exists todo'. rewrite Hrun. repeat split; assumption.
Defined.

(** X7: [list_todos] changes nothing and reports a [count] equal to the
    number of todos it returns and a [total] equal to the number
    stored; "all" returns every todo in the dictionary's order, the
    "completed" and the "pending" listings together have as many todos
    as the store, and any other status returns none. *)
Theorem list_todos_counts (status : string) (store : TodoStore) :
  let shown := listed (snd (list_todos status store)) in
  list_todos status store
  = (store, Ret (ListReply shown (List.length shown) (List.length (todos store))))
  /\ listed (snd (list_todos "all" store)) = map snd (todos store)
  /\ (List.length (listed (snd (list_todos "completed" store)))
      + List.length (listed (snd (list_todos "pending" store))))%nat
     = List.length (todos store)
  /\ (status <> "all" -> status <> "completed" -> status <> "pending" -> shown = []).
Proof.
  intros shown. split; [reflexivity|].
  subst shown. rewrite !listed_eq. cbn.
  split; [|split].
  - induction (map snd (todos store)) as [|todo l IH]; [reflexivity|].
    cbn. f_equal. exact IH.
  - rewrite <- (length_map snd (todos store)).
    induction (map snd (todos store)) as [|todo l IH]; [reflexivity|].
    cbn. destruct (completed todo); cbn; lia.
  - intros Hall Hcompleted Hpending.
    apply String.eqb_neq in Hall, Hcompleted, Hpending.
    rewrite Hall, Hcompleted, Hpending. cbn.
    induction (map snd (todos store)) as [|todo l IH]; [reflexivity|exact IH].
Qed.

Lemma list_todos_counts_witness :
  let store := fst (serve [ CreateTodo "buy milk" "" "medium" "t0";
                            CreateTodo "call mum" "" "high" "t1";
                            UpdateTodo 2 None None None (Some true) "t2" ] TodoStore_init) in
  map id (listed (snd (list_todos "done" store))) = []
  /\ map id (listed (snd (list_todos "completed" store))) = [2]
  /\ map id (listed (snd (list_todos "pending" store))) = [1].
Proof.
  intros store.
  destruct (list_todos_counts "done" store) as (_ & _ & _ & Hnone).
  rewrite Hnone by discriminate. repeat split.
Defined.

(** X8: Creating a todo and deleting it again gives back the dictionary as
    it was; only the id counter has moved on, so the id is spent. *)
Theorem create_then_delete_restores
    (title description priority now : string) (store : TodoStore) :
  ~ In (_next_id store) (ids store) ->
  let created := create_todo title description priority now store in
  exists todo,
    snd created = Ret (TodoReply true todo)
    /\ delete_todo (_next_id store) (fst created)
       = ({| todos := todos store; _next_id := _next_id store + 1 |},
          Ret (DeletedReply true todo)).
Proof.
  intros Hfresh created. subst created. rewrite create_todo_eq. cbn [fst snd].
  eexists. split; [reflexivity|].
  rewrite setitem_fresh by exact Hfresh.
  unfold delete_todo, bind, get. cbn [todos].
  assert (Hin : dict_contains Z.eqb (_next_id store)
                  (todos store ++ [(_next_id store,
                     {| id := _next_id store; title := title; description := description;
                        priority := priority; completed := false; created_at := now;
                        updated_at := None |})]) = true).
  { apply contains_keys. rewrite map_app. apply in_or_app. right. cbn. tauto. }
  rewrite Hin. cbn [negb]. unfold lift. rewrite pop_fresh_snoc by exact Hfresh.
  reflexivity.
Qed.

Lemma create_then_delete_restores_witness :
  let store := fst (create_todo "buy milk" "" "medium" "t0" TodoStore_init) in
  fst (delete_todo 2 (fst (create_todo "call mum" "" "high" "t1" store)))
  = {| todos := todos store; _next_id := 3 |}.
Proof.
  intros store.
  assert (Hfresh : ~ In (_next_id store) (ids store)) by (cbn; lia).
  destruct (create_then_delete_restores "call mum" "" "high" "t1" store Hfresh)
    as (todo & _ & Hrun).
  change (_next_id store) with 2 in Hrun. rewrite Hrun. reflexivity.
Defined.

(** X9: Repeating an [update_todo] with the same arguments and the same
    clock reading changes nothing more: the second call leaves the
    store as the first left it and returns the same dictionary. *)
Theorem update_todo_twice
    (todo_id : Z) (title description priority : option string)
    (completed : option bool) (now : string) (store : TodoStore) :
  let once := update_todo todo_id title description priority completed now store in
  update_todo todo_id title description priority completed now (fst once) = once.
Proof.
  intros once. subst once.
  destruct (find todo_id store) as [todo|] eqn:Hfind.
  - rewrite (update_todo_found _ _ _ _ _ _ _ _ Hfind). cbn [fst].
    set (todo' := updated todo title description priority completed now).
    assert (Hfind' : find todo_id {| todos := dict_setitem Z.eqb todo_id todo' (todos store);
                                     _next_id := _next_id store |} = Some todo')
      by (unfold find; cbn; rewrite lookup_setitem, Z.eqb_refl; reflexivity).
    rewrite (update_todo_found _ _ _ _ _ _ _ _ Hfind'). cbn [todos _next_id].
    assert (Hsame : updated todo' title description priority completed now = todo')
      by (unfold todo', updated; cbn; rewrite !or_keep_twice; reflexivity).
    rewrite Hsame, setitem_twice. reflexivity.
  - rewrite (update_todo_missing _ _ _ _ _ _ _ Hfind). cbn [fst].
    apply update_todo_missing, Hfind.
Qed.

(** X10: On a server started fresh, every id under which the store holds a
    todo is one that [create_todo] issued: no todo appears under an id
    of its own making. *)
Theorem stored_ids_were_issued (calls : list Call) :
  let run := serve calls TodoStore_init in
  Forall (fun k => In k (issued_ids (snd run))) (ids (fst run)).
Proof.
  intros run. subst run.
  destruct (serve_keeps_store_ok calls TodoStore_init init_store_ok)
    as (_ & _ & Hbound & _).
  rewrite good_todo_server_props.issued_ids_consecutive.
  rewrite serve_next_id in Hbound. cbn [_next_id TodoStore_init] in *.
  eapply Forall_impl; [exact Hbound|].
  cbn. intros k Hk. apply list_elem_of_In, elem_of_seqZ. lia.
Qed.

End good_todo_server_store.

(* ===================================================================== *)
(** * The two servers compared                                           *)
(* ===================================================================== *)

Module server_variants_props.
Import server_variants.
Local Open Scope list_scope.

Lemma contains_short (k : Z) (d : list (Z * good_todo_server.Todo)) :
  dict_contains Z.eqb k (map short_entry d) = dict_contains Z.eqb k d.
Proof.
  induction d as [|[k0 v0] d IH]; [reflexivity|].
  cbn. destruct (Z.eqb k0 k); [reflexivity|exact IH].
Qed.

Lemma getitem_short (k : Z) (d : list (Z * good_todo_server.Todo)) :
  dict_getitem Z.eqb pretty k (map short_entry d)
  = match dict_getitem Z.eqb pretty k d with
    | Ret todo => Ret (short_keys todo)
    | Raise e => Raise e
    end.
Proof.
  unfold dict_getitem.
  induction d as [|[k0 v0] d IH]; [reflexivity|].
  cbn. destruct (Z.eqb k0 k); [reflexivity|exact IH].
Qed.

Lemma setitem_short (k : Z) (todo : good_todo_server.Todo)
    (d : list (Z * good_todo_server.Todo)) :
  dict_setitem Z.eqb k (short_keys todo) (map short_entry d)
  = map short_entry (dict_setitem Z.eqb k todo d).
Proof.
  induction d as [|[k0 v0] d IH]; [reflexivity|].
  cbn. destruct (Z.eqb k0 k); [reflexivity|]. cbn. rewrite IH. reflexivity.
Qed.

Lemma pop_short (k : Z) (d : list (Z * good_todo_server.Todo)) :
  dict_pop Z.eqb pretty k (map short_entry d)
  = match dict_pop Z.eqb pretty k d with
    | Ret (todo, d') => Ret (short_keys todo, map short_entry d')
    | Raise e => Raise e
    end.
Proof.
  induction d as [|[k0 v0] d IH]; [reflexivity|].
  cbn. destruct (Z.eqb k0 k); [reflexivity|]. rewrite IH.
  destruct (dict_pop Z.eqb pretty k d) as [[todo d']|e]; reflexivity.
Qed.

Lemma filter_short (p : bool -> bool) (l : list good_todo_server.Todo) :
  List.filter (fun todo => p (bad_todo_server.co todo)) (map short_keys l)
  = map short_keys (List.filter (fun todo => p (good_todo_server.completed todo)) l).
Proof.
  induction l as [|todo l IH]; [reflexivity|].
  cbn. rewrite IH. destruct (p (good_todo_server.completed todo)); reflexivity.
Qed.

(** One request: the two servers do the same to corresponding stores
    and answer correspondingly. *)
Lemma dispatch_short (c : good_todo_server.Call) (store : good_todo_server.TodoStore) :
  bad_todo_server.dispatch (short_call c) (short_store store)
  = (short_store (fst (good_todo_server.dispatch c store)),
     short_outcome (snd (good_todo_server.dispatch c store))).
Proof.
  destruct c as [title description priority now|status
                |i title description priority completed now|i];
    cbn [short_call bad_todo_server.dispatch good_todo_server.dispatch].
  - unfold bad_todo_server.create, good_todo_server.create_todo, bind, modify, ret,
      bad_todo_server.get_next_id, good_todo_server.get_next_id,
      bad_todo_server.set_todos, good_todo_server.set_todos, short_store.
    cbn. rewrite <- setitem_short. reflexivity.
  - unfold bad_todo_server.list', good_todo_server.list_todos, bind, get, ret,
      dict_values.
    cbn [fst snd short_outcome short_reply short_store bad_todo_server.todos].
    rewrite !good_todo_server_store.filter_Is_true, !length_map.
    rewrite map_map. cbn [short_entry snd].
    rewrite <- (map_map snd short_keys).
    rewrite (filter_short
               (fun done => String.eqb status "all"
                            || (String.eqb status "completed" && done)
                            || (String.eqb status "pending" && negb done))).
    rewrite length_map. reflexivity.
  - unfold bad_todo_server.update, good_todo_server.update_todo, bind, get.
    cbn [short_store bad_todo_server.todos]. rewrite contains_short.
    destruct (dict_contains Z.eqb i (good_todo_server.todos store)); cbn [negb];
      [|reflexivity].
    unfold lift. rewrite getitem_short.
    destruct (dict_getitem Z.eqb pretty i (good_todo_server.todos store)) as [todo|e];
      [|reflexivity].
    unfold modify, ret, bad_todo_server.set_todos, good_todo_server.set_todos, short_store.
    cbn. rewrite <- setitem_short. reflexivity.
  - unfold bad_todo_server.delete', good_todo_server.delete_todo, bind, get.
    cbn [short_store bad_todo_server.todos]. rewrite contains_short.
    destruct (dict_contains Z.eqb i (good_todo_server.todos store)); cbn [negb];
      [|reflexivity].
    unfold lift. rewrite pop_short.
    destruct (dict_pop Z.eqb pretty i (good_todo_server.todos store)) as [[todo d']|e];
      reflexivity.
Qed.

(** X11: The two servers differ in vocabulary only: fed the same requests
    from corresponding stores, [bad_todo_server] ends in the store and
    gives the results that [good_todo_server] does, read under the
    short keys; in particular it issues the same ids and reports the
    same errors. *)
Theorem bad_server_mirrors_good
    (calls : list good_todo_server.Call) (store : good_todo_server.TodoStore) :
  bad_todo_server.serve (map short_call calls) (short_store store)
  = (short_store (fst (good_todo_server.serve calls store)),
     short_log (snd (good_todo_server.serve calls store)))
  /\ short_store good_todo_server.TodoStore_init = bad_todo_server.TodoStore_init.
Proof.
  split; [|reflexivity].
  revert store. induction calls as [|c calls IH]; intros store; [reflexivity|].
  rewrite good_todo_server_props.serve_cons.
  cbn [map bad_todo_server.serve fst snd short_log].
  rewrite dispatch_short, IH. reflexivity.
Qed.

End server_variants_props.

(* ===================================================================== *)
(** * More on the host                                                   *)
(* ===================================================================== *)

Module todo_client_loop.
Import todo_client.
Local Open Scope list_scope.

(** ** Strings *)

Lemma lower_app (a b : string) : lower (a ++ b)%string = (lower a ++ lower b)%string.
Proof.
  induction a as [|c a IH]; [reflexivity|].
  change (String (lower_ascii c) (lower (a ++ b)%string)
          = String (lower_ascii c) (lower a ++ lower b)%string).
  by rewrite IH.
Qed.

Lemma prefix_app (s t : string) : String.prefix s (s ++ t)%string = true.
Proof.
  induction s as [|c s IH]; [destruct t; reflexivity|].
  change (String.prefix (String c s) (String c (s ++ t)%string) = true).
  cbn [String.prefix]. destruct (ascii_dec c c); [exact IH|congruence].
Qed.

Lemma str_in_eq (needle hay : string) :
  str_in needle hay
  = if String.prefix needle hay then true
    else match hay with
         | EmptyString => false
         | String _ hay' => str_in needle hay'
         end.
Proof. destruct hay; reflexivity. Qed.

(** [needle in hay] holds of every text that has [needle] inside. *)
Lemma str_in_app (needle before after : string) :
  str_in needle (before ++ needle ++ after)%string = true.
Proof.
  induction before as [|c before IH].
  - change (str_in needle (needle ++ after)%string = true).
    rewrite str_in_eq. by rewrite prefix_app.
  - change (str_in needle (String c (before ++ needle ++ after)%string) = true).
    rewrite str_in_eq.
    destruct (String.prefix needle _); [reflexivity|exact IH].
Qed.


Section Log.
Context `{E : Externals}.

Lemma calls_made_app (evs1 evs2 : list Event) :
  calls_made (evs1 ++ evs2) = calls_made evs1 ++ calls_made evs2.
Proof. apply flat_map_app. Qed.

Lemma calls_requested_app (evs1 evs2 : list Event) :
  calls_requested (evs1 ++ evs2) = calls_requested evs1 ++ calls_requested evs2.
Proof. apply flat_map_app. Qed.

Lemma model_exchanges_app (evs1 evs2 : list Event) :
  model_exchanges (evs1 ++ evs2) = model_exchanges evs1 ++ model_exchanges evs2.
Proof. apply flat_map_app. Qed.

(** A round of tool execution calls the adapter once per block, in the
    order of the blocks, with the block's name and input. *)
Lemma execute_tool_calls_log (tool_calls : list ToolUseBlock) (messages : list Message)
    (p : Process) :
  exists p' results evs,
    execute_tool_calls messages tool_calls p = (p', Ret (messages ++ results))
    /\ answers tool_calls results
    /\ trace p' = trace p ++ evs
    /\ calls_made evs = map (fun block => (tool_name block, tool_input block)) tool_calls
    /\ calls_requested evs = []
    /\ model_exchanges evs = [].
Proof.
  revert messages p. induction tool_calls as [|tool_call rest IH]; intros messages p.
  - exists p, [], []. cbn. unfold ret. rewrite !app_nil_r.
    repeat split; constructor.
  - destruct (todo_client_props.execute_tool_call_spec messages tool_call p)
      as (p1 & r & m & Hcall & Hm & _ & Htrace1).
    destruct (IH (messages ++ [m]) p1)
      as (p2 & results & evs & Hrest & Hres & Htrace2 & Hmade & Hreq & Hex).
    exists p2, (m :: results),
      ([ToolCall (tool_name tool_call) (tool_input tool_call) r] ++ evs).
    cbn [execute_tool_calls]. unfold bind. rewrite Hcall, Hrest.
    split; [by rewrite <- app_assoc|].
    split; [inversion Hm; subst; by constructor|].
    split; [rewrite Htrace2, Htrace1; by rewrite <- app_assoc|].
    rewrite calls_made_app, calls_requested_app, model_exchanges_app, Hmade, Hreq, Hex.
    repeat split.
Qed.

(** The loop's log: the adapter calls are the calls the model asked
    for, and the model calls continue one conversation. *)
Lemma for_range_log (n : nat) (tools : list json) (messages : list Message)
    (p : Process) :
  exists p' answer evs,
    for_range n tools messages p = (p', Ret answer)
    /\ trace p' = trace p ++ evs
    /\ calls_made evs = calls_requested evs
    /\ chained messages (model_exchanges evs).
Proof.
  revert messages p. induction n as [|n IH]; intros messages p.
  - exists p, need_more_time, []. rewrite app_nil_r. repeat split.
  - cbn [for_range]. unfold bind at 1. unfold iteration, try_except, iteration_body.
    unfold bind at 1. rewrite todo_client_props.create_message_eq.
    destruct (messages_create system_prompt messages tools (world p)) as [w [reply|e]].
    + set (p1 := {| self := self p; world := w;
                    trace := trace p ++ [ModelCall messages (Ret reply)] |}).
      destruct (tool_use_blocks reply) as [|tool_call rest] eqn:Hcalls.
      * exists p1,
          (match text_blocks reply with
           | first :: _ => text first
           | [] => no_text_answer
           end),
          [ModelCall messages (Ret reply)].
        split; [destruct (text_blocks reply); reflexivity|].
        split; [reflexivity|].
        cbn. rewrite Hcalls. cbn. auto.
      * destruct (execute_tool_calls_log (tool_call :: rest)
                    (messages ++ [ {| role := "assistant"; content := Blocks reply |} ]) p1)
          as (p2 & results & evs & Hrun & Hres & Htrace2 & Hmade & Hreq & Hex).
        unfold bind. rewrite Hrun. unfold ret.
        destruct (IH ((messages ++ [ {| role := "assistant"; content := Blocks reply |} ])
                      ++ results) p2)
          as (p3 & answer & evs' & Hloop & Htrace3 & Hsame & Hchain).
        exists p3, answer, ([ModelCall messages (Ret reply)] ++ evs ++ evs').
        split; [exact Hloop|].
        split; [rewrite Htrace3, Htrace2; subst p1; cbn [trace];
                by rewrite <- !app_assoc|].
        rewrite !calls_made_app, !calls_requested_app, !model_exchanges_app.
        rewrite Hmade, Hreq, Hex, Hsame. cbn. rewrite Hcalls, app_nil_r.
        split; [reflexivity|]. split; [reflexivity|].
        right. exists reply, results. rewrite Hcalls. auto.
    + exists {| self := self p; world := w;
                trace := trace p ++ [ModelCall messages (Raise e)] |}.
      exists (on_exception e), [ModelCall messages (Raise e)].
      split; [reflexivity|]. split; [reflexivity|]. cbn. auto.
Qed.

Lemma handle_request_log (client : TodoChatClient) (w : World) (user_input : string) :
  exists p' answer,
    handle_request client w user_input = (p', Ret answer)
    /\ calls_made (trace p') = calls_requested (trace p')
    /\ chained [ {| role := "user"; content := Str user_input |} ]
               (model_exchanges (trace p')).
Proof.
  unfold handle_request, process_with_llm. unfold bind at 1.
  rewrite todo_client_props.convert_to_anthropic_tools_eq.
  edestruct (for_range_log max_iterations)
    as (p' & answer & evs & Hrun & Htrace & Hsame & Hchain).
  rewrite Hrun. exists p', answer. cbn [trace app] in Htrace. rewrite Htrace. auto.
Qed.

(** ** Properties *)

(** C1: while a request is processed, every tool-use block of every
    reply receives exactly one result before the next model call.  The
    model calls of the request form one conversation: the first is
    sent the user's message, and each later one is sent what the call
    before it was sent, then that call's reply, then, for each
    tool-use block of the reply in order, exactly one result message,
    normal or error, tagged with the block's id; so every conversation
    sent is [all_answered].  The adapter is called once for each block
    the model asked for and for no other.  And a round of tool
    execution, taken on its own, appends one such result per block
    with one adapter call each and no model call in between. *)
Theorem every_tool_use_gets_one_result
    (client : TodoChatClient) (w : World) (user_input : string) :
  let log := trace (fst (handle_request client w user_input)) in
  chained [ {| role := "user"; content := Str user_input |} ] (model_exchanges log)
  /\ calls_well_formed log = true
  /\ calls_made log = calls_requested log
  /\ forall (messages : list Message) (reply : list ContentBlock) (p : Process),
      let conversation :=
        messages ++ [ {| role := "assistant"; content := Blocks reply |} ] in
      exists p' results evs,
        execute_tool_calls conversation (tool_use_blocks reply) p
          = (p', Ret (conversation ++ results))
        /\ answers (tool_use_blocks reply) results
        /\ trace p' = trace p ++ evs
        /\ tool_events evs
        /\ List.length evs = List.length (tool_use_blocks reply).
Proof.
  intros log. subst log.
  destruct (handle_request_log client w user_input)
    as (p' & answer & Hrun & Hsame & Hchain).
  destruct (todo_client_props.handle_request_spec client w user_input)
    as (p'' & answer' & Hrun' & _ & Hwf & _).
  rewrite Hrun in Hrun'. injection Hrun' as <- _.
  rewrite Hrun. cbn [fst].
  split; [exact Hchain|]. split; [exact Hwf|]. split; [exact Hsame|].
  intros messages reply p.
  destruct (todo_client_props.execute_tool_calls_spec (tool_use_blocks reply)
              (messages ++ [ {| role := "assistant"; content := Blocks reply |} ]) p)
    as (p1 & results & evs & Hround & Hres & _ & Htrace & Hevs & Hlen).
  exists p1, results, evs. auto.
Qed.

(** X12: While a request is processed, the adapter is called for exactly
    the tool uses the model asked for, with the name and the input of
    each block, in the order of the replies and of the blocks within a
    reply: no requested call is skipped, none is made unasked. *)
Theorem adapter_calls_are_the_requested_ones
    (client : TodoChatClient) (w : World) (user_input : string) :
  let log := trace (fst (handle_request client w user_input)) in
  calls_made log = calls_requested log.
Proof.
  intros log. subst log.
  destruct (handle_request_log client w user_input) as (p' & answer & -> & Hsame & _).
  exact Hsame.
Qed.

(** X13: A request starts a conversation of its own: the first model call
    is sent the user's message and nothing else, every later call is
    sent what the call before it was sent followed by that call's
    reply and one result per tool-use block of it, and the client
    object comes out as it went in, its history untouched. *)
Theorem each_request_is_one_growing_conversation
    (client : TodoChatClient) (w : World) (user_input : string) :
  let run := handle_request client w user_input in
  chained [ {| role := "user"; content := Str user_input |} ]
          (model_exchanges (trace (fst run)))
  /\ self (fst run) = client.
Proof.
  intros run. subst run. split.
  - destruct (handle_request_log client w user_input) as (p' & answer & -> & _ & Hchain).
    exact Hchain.
  - destruct (todo_client_props.handle_request_spec client w user_input)
      as (p' & answer & -> & Hself & _).
    exact Hself.
Qed.

(** X14: An exception of the model call that is neither a connection
    error nor an authentication error, nor an instance of a class
    deriving from one of them, ends the loop at once with the answer
    "Error: " followed by the exception's message. *)
Theorem other_model_failure_is_reported
    (n : nat) (tools : list json) (messages : list Message) (p : Process)
    (w' : World) (e : Exn) :
  messages_create system_prompt messages tools (world p) = (w', Raise e) ->
  isinstance e APIConnectionError = false ->
  isinstance e AuthenticationError = false ->
  for_range (S n) tools messages p
  = ({| self := self p; world := w';
        trace := trace p ++ [ModelCall messages (Raise e)] |},
     Ret ("Error: " ++ exn_str e)%string).
Proof.
  intros Hraise Hconnection Hauthentication.
  cbn [for_range]. unfold bind at 1.
  unfold iteration, try_except, iteration_body. unfold bind at 1.
  rewrite todo_client_props.create_message_eq, Hraise. unfold ret, on_exception.
  rewrite Hconnection, Hauthentication. reflexivity.
Qed.

(** X15: A tool answer that cannot be read (its first content item is text
    that [json.loads] rejects, or is not text at all) is handed to the
    model as an error result with the block's id, exactly as a failed
    call is; the round goes on. *)
Theorem unreadable_tool_answer_is_reported
    (messages : list Message) (tool_call : ToolUseBlock) (rest : list ToolUseBlock)
    (p p1 : Process) (result : CallToolResult) :
  call_tool (tool_name tool_call) (tool_input tool_call) p = (p1, Ret result) ->
  (forall text others e,
      call_content result = Some (TextContent text :: others) ->
      json_loads text = Raise e ->
      execute_tool_call messages tool_call p
      = (p1, Ret (messages ++ [tool_error_message (tool_id tool_call) e]))
      /\ execute_tool_calls messages (tool_call :: rest) p
         = execute_tool_calls (messages ++ [tool_error_message (tool_id tool_call) e]) rest p1)
  /\ (forall type_name others,
         call_content result = Some (NonTextContent type_name :: others) ->
         exists e,
           exn_class e = AttributeError
           /\ execute_tool_call messages tool_call p
              = (p1, Ret (messages ++ [tool_error_message (tool_id tool_call) e]))).
Proof.
  intros Hcall. split.
  - intros text0 others e Hcontent Hloads.
    assert (Hone : execute_tool_call messages tool_call p
                   = (p1, Ret (messages ++ [tool_error_message (tool_id tool_call) e]))).
    { rewrite todo_client_props.execute_tool_call_eq, Hcall.
      unfold parse_result. rewrite Hcontent, Hloads. reflexivity. }
    split; [exact Hone|].
    cbn [execute_tool_calls]. unfold bind. rewrite Hone. reflexivity.
  - intros type_name others Hcontent. eexists. split; [|
      rewrite todo_client_props.execute_tool_call_eq, Hcall;
      unfold parse_result; rewrite Hcontent; reflexivity].
    reflexivity.
Qed.

(** X16: On a client that never connected, a round of tool execution
    reaches no tool server: the outside world is left as it is, and
    every tool-use block gets the error result that says the session
    is not initialized. *)
Theorem unconnected_client_reports_every_tool
    (tool_calls : list ToolUseBlock) (messages : list Message) (p : Process) :
  session (mcp_client (self p)) = None ->
  execute_tool_calls messages tool_calls p
  = ({| self := self p; world := world p;
        trace := trace p
                 ++ map (fun block =>
                           ToolCall (tool_name block) (tool_input block) (Raise not_connected))
                        tool_calls |},
     Ret (messages
          ++ map (fun block =>
                    {| role := "user";
                       content :=
                         ToolResults
                           [ {| tool_use_id := tool_id block;
                                result_content :=
                                  "Error: MCP session not initialized. Call connect() first.";
                                is_error := Some true |} ] |})
                 tool_calls)).
Proof.
  revert messages p. induction tool_calls as [|tool_call rest IH]; intros messages p Hnone.
  - cbn. unfold ret. rewrite !app_nil_r. by destruct p.
  - cbn [execute_tool_calls]. unfold bind.
    rewrite todo_client_props.execute_tool_call_eq, todo_client_props.call_tool_eq, Hnone.
    rewrite IH by exact Hnone. cbn [self world trace map].
    rewrite <- !app_assoc. reflexivity.
Qed.

(** X17: The test for a certificate problem does not depend on letter case:
    a connection error whose message has "ssl" or "certificate"
    anywhere in it, in any mix of upper and lower case, gets the SSL
    remediation text. *)
Theorem certificate_test_ignores_case
    (n : nat) (tools : list json) (messages : list Message) (p : Process)
    (w' : World) (e : Exn) (before word after : string) :
  messages_create system_prompt messages tools (world p) = (w', Raise e) ->
  exn_class e = APIConnectionError ->
  exn_str e = (before ++ word ++ after)%string ->
  lower word = "ssl" \/ lower word = "certificate" ->
  snd (for_range (S n) tools messages p) = Ret ssl_certificate_error.
Proof.
  intros Hraise Hclass Hstr Hword.
  cbn [for_range]. unfold bind at 1.
  unfold iteration, try_except, iteration_body. unfold bind at 1.
  rewrite todo_client_props.create_message_eq, Hraise. unfold ret, on_exception.
  assert (Hinstance : isinstance e APIConnectionError = true)
    by (unfold isinstance; rewrite Hclass; reflexivity).
  rewrite Hinstance, Hstr, !lower_app. cbn [snd].
  destruct Hword as [-> | ->]; rewrite str_in_app;
    [rewrite orb_true_r|]; reflexivity.
Qed.


End Log.

(** ** On the scripted collaborators *)

Import scripted.

(** Two tools asked for in one reply, one in the next: three adapter
    calls, in that order. *)
Example three_calls_in_order :
  let w := {| model_replies := [Ret [buy_milk; added; list_all]; Ret [list_all]; Ret [added]];
              tool_replies := [] |} in
  calls_made (trace (fst (handle_request client w "Add milk, then show my todos")))
  = [ ("create_todo", JDict [ ("title", JString "buy milk") ]);
      ("list_todos", JDict []);
      ("list_todos", JDict []) ].
Proof. reflexivity. Qed.

Lemma other_model_failure_is_reported_witness :
  snd (for_range 10 [] [ask "Show me all my todos"] (start rate_limited))
  = Ret "Error: Error code: 429".
Proof.
  rewrite (other_model_failure_is_reported 9 [] [ask "Show me all my todos"]
             (start rate_limited) {| model_replies := []; tool_replies := [] |} overloaded);
    reflexivity.
Defined.

Lemma unreadable_tool_answer_is_reported_witness :
  let p := start garbled_response in
  snd (execute_tool_call [] list_all_call p)
  = Ret [ {| role := "user";
             content :=
               ToolResults
                 [ {| tool_use_id := "toolu_02";
                      result_content := "Error: Expecting value: line 1 column 1 (char 0)";
                      is_error := Some true |} ] |} ].
Proof.
  intros p.
  assert (Hcall : call_tool (tool_name list_all_call) (tool_input list_all_call) p
                  = (fst (call_tool "list_todos" (JDict []) p),
                     Ret {| call_content := Some [TextContent ""] |})) by reflexivity.
  destruct (unreadable_tool_answer_is_reported [] list_all_call [] p _ _ Hcall) as [Htext _].
  destruct (Htext "" [] _ eq_refl eq_refl) as [Hone _].
  rewrite Hone. reflexivity.
Defined.

Lemma unconnected_client_reports_every_tool_witness :
  let p := {| self := offline_client; world := silent; trace := [] |} in
  world (fst (execute_tool_calls [] [buy_milk_call; list_all_call] p)) = silent
  /\ tool_calls_made (trace (fst (execute_tool_calls [] [buy_milk_call; list_all_call] p)))
     = 2%nat.
Proof.
  intros p.
  rewrite (unconnected_client_reports_every_tool [buy_milk_call; list_all_call] [] p eq_refl).
  split; reflexivity.
Defined.

Lemma certificate_test_ignores_case_witness :
  snd (for_range 10 [] [ask "Show me all my todos"] (start bad_certificate))
  = Ret ssl_certificate_error.
Proof.
  apply (certificate_test_ignores_case 9 [] [ask "Show me all my todos"]
           (start bad_certificate) {| model_replies := []; tool_replies := [] |}
           certificate_failure "[" "SSL" ": CERTIFICATE_VERIFY_FAILED] certificate verify failed");
    [reflexivity|reflexivity|reflexivity|left; reflexivity].
Defined.

End todo_client_loop.


(* ===================================================================== *)
(** * The interactive shell                                              *)
(* ===================================================================== *)

Module todo_client_shell_props.
Import todo_client todo_client_shell.
Local Open Scope list_scope.

Section Shell.
Context `{E : Externals}.
Variable input : string -> World -> World * Keyboard.
Variable strip : string -> string.
Variable server_emoji : string.

(** A request always comes back with an answer, after at most
    [max_iterations] model calls, whatever the log held before. *)
Lemma process_with_llm_returns (user_input : string) (p : Process) :
  exists p' answer evs,
    process_with_llm user_input p = (p', Ret answer)
    /\ self p' = self p
    /\ trace p' = trace p ++ evs
    /\ (model_calls evs <= max_iterations)%nat.
Proof.
  unfold process_with_llm. unfold bind at 1.
  rewrite todo_client_props.convert_to_anthropic_tools_eq.
  edestruct (todo_client_props.for_range_spec max_iterations)
    as (p' & answer & evs & Hrun & Hself & Htrace & _ & Hcount & _);
    [|rewrite Hrun; exists p', answer, evs; eauto].
  reflexivity.
Qed.

(** X18: Two kinds of line cost nothing.  The words "quit", "exit" and
    "bye", in any letter case and however [strip] finds them in the
    line typed, end the session: the goodbye line is printed, no model
    call is made and no further line is read.  A line that [strip]
    leaves empty is passed over: no model call, no output, and the
    loop asks for the next line. *)
Theorem quit_and_blank_lines_cost_nothing
    (passes : nat) (p : Process) (w' : World) (line : string) :
  input (server_emoji ++ " You: ")%string (world p) = (w', Typed line) ->
  let p1 := {| self := self p; world := w'; trace := trace p |} in
  (lower (strip line) = "quit" \/ lower (strip line) = "exit" \/ lower (strip line) = "bye" ->
   chat_loop input strip server_emoji (S passes) p
   = (p1, ([ (server_emoji ++ " Claude: Goodbye! Your todos are saved.")%string ], true)))
  /\ (strip line = "" ->
      chat_loop input strip server_emoji (S passes) p
      = chat_loop input strip server_emoji passes p1).
Proof.
  intros Hinput p1. split.
  - intros Hword. cbn [chat_loop]. unfold chat_pass. rewrite Hinput.
    destruct Hword as [-> | [-> | ->]]; reflexivity.
  - intros Hblank. cbn [chat_loop]. unfold chat_pass. rewrite Hinput, Hblank.
    cbn. by destruct (chat_loop input strip server_emoji passes _) as [p'' [printed ended]].
Qed.

(** X19: Any other line is one request: it is answered, after at most
    ten model calls, and the loop goes on; a request cannot end the
    session.  On a client without the debug flag all that is printed
    for it is one line, the emoji, " Claude: " and the answer. *)
Theorem request_line_is_answered
    (passes : nat) (p : Process) (w' : World) (line : string) :
  debug (self p) = false ->
  input (server_emoji ++ " You: ")%string (world p) = (w', Typed line) ->
  str_member (lower (strip line)) [ "quit"; "exit"; "bye" ] = false ->
  strip line <> "" ->
  exists p' answer evs,
    process_with_llm (strip line) {| self := self p; world := w'; trace := trace p |}
    = (p', Ret answer)
    /\ trace p' = trace p ++ evs
    /\ (model_calls evs <= 10)%nat
    /\ chat_loop input strip server_emoji (S passes) p
       = (fst (chat_loop input strip server_emoji passes p'),
          ((server_emoji ++ " Claude: " ++ answer)%string
             :: fst (snd (chat_loop input strip server_emoji passes p')),
           snd (snd (chat_loop input strip server_emoji passes p')))).
Proof.
  intros _ Hinput Hword Hblank.
  destruct (process_with_llm_returns (strip line)
              {| self := self p; world := w'; trace := trace p |})
    as (p' & answer & evs & Hrun & _ & Htrace & Hcount).
  exists p', answer, evs. split; [exact Hrun|]. split; [exact Htrace|].
  split; [exact Hcount|].
  cbn [chat_loop]. unfold chat_pass. rewrite Hinput, Hword.
  apply String.eqb_neq in Hblank. rewrite Hblank, Hrun.
  by destruct (chat_loop input strip server_emoji passes p') as [p'' [printed ended]].
Qed.

(** X20: When [input] keeps raising, as it does once the input has ended,
    the loop never leaves: pass after pass it prints "Error: " and the
    exception's message, and nothing else happens. *)
Theorem failing_input_never_ends_the_loop (e : Exn) (passes : nat) (p : Process) :
  (forall prompt w, input prompt w = (w, InputFailed e)) ->
  chat_loop input strip server_emoji passes p
  = (p, (repeat ("Error: " ++ exn_str e)%string passes, false)).
Proof.
  intros Hinput. induction passes as [|passes IH]; [reflexivity|].
  cbn [chat_loop]. unfold chat_pass. rewrite Hinput.
  replace {| self := self p; world := world p; trace := trace p |} with p
    by (by destruct p).
  rewrite IH. reflexivity.
Qed.

End Shell.

Import scripted.

Lemma quit_and_blank_lines_cost_nothing_witness :
  snd (chat_loop (E := externals) (typing "  Quit ") strip_blanks "*" 5 (start tool_hungry))
  = ([ "* Claude: Goodbye! Your todos are saved." ], true)
  /\ chat_loop (E := externals) (typing "   ") strip_blanks "*" 3 (start tool_hungry)
     = (start tool_hungry, ([], false)).
Proof.
  split.
  - destruct (quit_and_blank_lines_cost_nothing (E := externals) (typing "  Quit ")
                strip_blanks "*" 4 (start tool_hungry) tool_hungry "  Quit " eq_refl)
      as [Hquit _].
    rewrite Hquit; [reflexivity|left; reflexivity].
  - destruct (quit_and_blank_lines_cost_nothing (E := externals) (typing "   ")
                strip_blanks "*" 2 (start tool_hungry) tool_hungry "   " eq_refl)
      as [_ Hblank].
    rewrite Hblank; reflexivity.
Defined.

Lemma request_line_is_answered_witness :
  let w := {| model_replies := [Ret [added]]; tool_replies := [] |} in
  snd (chat_loop (E := externals) (typing "Add a todo to buy milk") strip_blanks "*" 1 (start w))
  = ([ "* Claude: I've added 'buy milk' to your list." ], false).
Proof.
  intros w.
  destruct (request_line_is_answered (E := externals) (typing "Add a todo to buy milk") strip_blanks "*" 0
              (start w) w "Add a todo to buy milk" eq_refl eq_refl eq_refl)
    as (p' & answer & evs & Hrun & _ & _ & Hloop); [discriminate|].
  rewrite Hloop. cbn [fst snd chat_loop].
  assert (Hanswer : Ret answer = Ret "I've added 'buy milk' to your list.").
  { transitivity (snd (process_with_llm (strip_blanks "Add a todo to buy milk")
                         {| self := self (start w); world := w; trace := trace (start w) |}));
      [rewrite Hrun; reflexivity|reflexivity]. }
  injection Hanswer as ->. reflexivity.
Defined.

Lemma failing_input_never_ends_the_loop_witness :
  snd (chat_loop (E := externals) end_of_input strip_blanks "*" 3 (start silent))
  = ([ "Error: EOF when reading a line"; "Error: EOF when reading a line";
       "Error: EOF when reading a line" ], false).
Proof.
  rewrite (failing_input_never_ends_the_loop (E := externals) end_of_input strip_blanks "*" end_of_file 3
             (start silent)); [reflexivity|].
  intros prompt w. reflexivity.
Defined.

End todo_client_shell_props.
